(** * kube-rbac-proxy: attribute resolution, rewrite validation and the
      authorization loop

    A shallow embedding of [pkg/authz/auth.go] and [pkg/proxy/proxy.go].

    Go pointers that may be [nil] are [option]s, a slice that may be [nil]
    is an [option (list _)] ([Some []] is the empty, non-nil slice), a
    [map[string]struct{}] is a [gset string], and a run-time panic (a nil
    dereference) is the [Panicked] outcome. *)

From Stdlib Require Import String Ascii List Bool Arith Lia.
From stdpp Require Import base option list gmap strings.

Local Open Scope string_scope.
Local Open Scope list_scope.

(** ** Outcomes of Go calls *)

(** A call either returns a value or panics. *)
Inductive Outcome (A : Type) : Type :=
| Returned (a : A)
| Panicked (why : string).
Arguments Returned {A} a.
Arguments Panicked {A} why.

Definition obind {A B} (o : Outcome A) (k : A -> Outcome B) : Outcome B :=
  match o with
  | Returned a => k a
  | Panicked why => Panicked why
  end.

Notation "x <-! c ;; k" := (obind c (fun x => k))
  (at level 100, c at next level, right associativity).

(** The panic of the Go runtime on a nil pointer. *)
Definition nilDereference : string :=
  "runtime error: invalid memory address or nil pointer dereference".

(** A [(value, error)] pair of which exactly one is set. *)
Inductive Result (A : Type) : Type :=
| Ok (a : A)
| Err (msg : string).
Arguments Ok {A} a.
Arguments Err {A} msg.

(** ** Package authz: the configuration types (auth.go:28-85, 152-209) *)

Definition Namespace : string := "namespace".
Definition ApiGroup : string := "apiGroup".
Definition APIVersion : string := "apiVersion".
Definition Resource : string := "resource".
Definition Subresource : string := "subresource".
Definition Name : string := "name".

(** [QueryParameterRewriteConfig]. *)
Record QueryParameterRewriteConfig : Type := mkQueryParameterRewriteConfig {
  qp_Name : string;
  qp_RewriteTargets : option (list string);
  qp_rewriteTargetsSet : option (gset string)
}.

(** [HTTPHeaderRewriteConfig]. *)
Record HTTPHeaderRewriteConfig : Type := mkHTTPHeaderRewriteConfig {
  hh_Name : string;
  hh_RewriteTargets : option (list string);
  hh_rewriteTargetsSet : option (gset string)
}.

(** [SubjectAccessReviewRewrites]. *)
Record SubjectAccessReviewRewrites : Type := mkSubjectAccessReviewRewrites {
  ByQueryParameter : option QueryParameterRewriteConfig;
  ByHTTPHeader : option HTTPHeaderRewriteConfig
}.

(** [ResourceAttributes]: the six-field template. *)
Record ResourceAttributes : Type := mkResourceAttributes {
  ra_Namespace : string;
  ra_APIGroup : string;
  ra_APIVersion : string;
  ra_Resource : string;
  ra_Subresource : string;
  ra_Name : string
}.

(** [authz.Config]. *)
Record Config : Type := mkConfig {
  Rewrites : option SubjectAccessReviewRewrites;
  cfg_ResourceAttributes : option ResourceAttributes;
  ResourceAttributesFile : string
}.

(** [GetRewriteTargetsSet] of either rule. *)
Definition qp_GetRewriteTargetsSet (c : QueryParameterRewriteConfig) : option (gset string) :=
  qp_rewriteTargetsSet c.

Definition hh_GetRewriteTargetsSet (c : HTTPHeaderRewriteConfig) : option (gset string) :=
  hh_rewriteTargetsSet c.

(** Field assignments through the pointers of the configuration. *)
Definition qp_setRewriteTargets (l : option (list string)) (c : QueryParameterRewriteConfig) :=
  mkQueryParameterRewriteConfig (qp_Name c) l (qp_rewriteTargetsSet c).

Definition qp_setRewriteTargetsSet (s : option (gset string)) (c : QueryParameterRewriteConfig) :=
  mkQueryParameterRewriteConfig (qp_Name c) (qp_RewriteTargets c) s.

Definition hh_setRewriteTargets (l : option (list string)) (c : HTTPHeaderRewriteConfig) :=
  mkHTTPHeaderRewriteConfig (hh_Name c) l (hh_rewriteTargetsSet c).

Definition hh_setRewriteTargetsSet (s : option (gset string)) (c : HTTPHeaderRewriteConfig) :=
  mkHTTPHeaderRewriteConfig (hh_Name c) (hh_RewriteTargets c) s.

Definition setRewrites (rw : SubjectAccessReviewRewrites) (cfg : Config) : Config :=
  mkConfig (Some rw) (cfg_ResourceAttributes cfg) (ResourceAttributesFile cfg).

(** [allResourceAttributesNames] (auth.go:92, 216). *)
Definition allResourceAttributesNames : list string :=
  [Namespace; ApiGroup; APIVersion; Resource; Subresource; Name].

(** [m := map[string]struct{}{}; for _, v := range l { m[v] = struct{}{} }]. *)
Definition buildSet (l : list string) : gset string :=
  fold_left (fun m v => {[ v ]} ∪ m) l ∅.

(** Reading a possibly nil slice or map: [range] over nil runs no iteration,
    [len] of nil is 0, a lookup in a nil map finds nothing. *)
Definition sliceElems (l : option (list string)) : list string := default [] l.
Definition mapKeys (s : option (gset string)) : gset string := default ∅ s.

(** The default both versions of [InitConfig] apply first (auth.go:94-98,
    218-222): a lone rule with nil targets gets all six names. *)
Definition applyDefaults (rw : SubjectAccessReviewRewrites) : SubjectAccessReviewRewrites :=
  match ByQueryParameter rw, ByHTTPHeader rw with
  | Some q, None =>
      match qp_RewriteTargets q with
      | None =>
          mkSubjectAccessReviewRewrites
            (Some (qp_setRewriteTargets (Some allResourceAttributesNames) q)) None
      | Some _ => rw
      end
  | None, Some h =>
      match hh_RewriteTargets h with
      | None =>
          mkSubjectAccessReviewRewrites
            None (Some (hh_setRewriteTargets (Some allResourceAttributesNames) h))
      | Some _ => rw
      end
  | _, _ => rw
  end.

(** *** InitConfig without validation (auth.go:87-110) *)
Module AuthzDefaults.

(** Lines 100-107 assign through [cfg.Rewrites.ByQueryParameter] and
    [cfg.Rewrites.ByHTTPHeader] without testing either for nil. *)
Definition InitConfig (cfg : Config) : Outcome Config :=
  match Rewrites cfg with
  | None => Returned cfg
  | Some rw0 =>
      match ByQueryParameter rw0, ByHTTPHeader rw0 with
      | None, None => Returned cfg
      | _, _ =>
          let rw := applyDefaults rw0 in
          match ByQueryParameter rw with
          | None => Panicked nilDereference
          | Some q =>
              let q' :=
                qp_setRewriteTargetsSet
                  (Some (buildSet (sliceElems (qp_RewriteTargets q)))) q in
              match ByHTTPHeader rw with
              | None => Panicked nilDereference
              | Some h =>
                  let h' :=
                    hh_setRewriteTargetsSet
                      (Some (buildSet (sliceElems (hh_RewriteTargets h)))) h in
                  Returned
                    (setRewrites (mkSubjectAccessReviewRewrites (Some q') (Some h')) cfg)
              end
          end
      end
  end.

End AuthzDefaults.

(** *** InitConfig with validation (auth.go:211-253) *)
Module Authz.

Definition errMissingTargets : string :=
  "both query param and http header rewrites are specified but rewriteTargets are missing".

Definition errNotExclusive : string :=
  "to avoid ambiguity http header and query paramas rewriteTargets must be mutually exclusive".

(** Lines 225-230. *)
Definition materializeQuery (q : QueryParameterRewriteConfig) : QueryParameterRewriteConfig :=
  match qp_RewriteTargets q with
  | Some l => qp_setRewriteTargetsSet (Some (buildSet l)) q
  | None => q
  end.

(** Lines 231-236. *)
Definition materializeHeader (h : HTTPHeaderRewriteConfig) : HTTPHeaderRewriteConfig :=
  match hh_RewriteTargets h with
  | Some l => hh_setRewriteTargetsSet (Some (buildSet l)) h
  | None => h
  end.

Definition materialize (rw : SubjectAccessReviewRewrites) : SubjectAccessReviewRewrites :=
  mkSubjectAccessReviewRewrites
    (materializeQuery <$> ByQueryParameter rw)
    (materializeHeader <$> ByHTTPHeader rw).

(** Lines 245-249: some key of the query set is a key of the header set.
    The iteration order of a Go map is unspecified; the outcome does not
    depend on it. *)
Definition sharesKey (qs hs : option (gset string)) : bool :=
  existsb (fun k => bool_decide (k ∈ mapKeys hs)) (elements (mapKeys qs)).

(** Lines 238-250. *)
Definition checkExclusive (rw : SubjectAccessReviewRewrites) : option string :=
  match ByQueryParameter rw, ByHTTPHeader rw with
  | Some q, Some h =>
      match qp_RewriteTargets q, hh_RewriteTargets h with
      | Some ql, Some hl =>
          if Nat.eqb (List.length ql) 0 || Nat.eqb (List.length hl) 0 then Some errMissingTargets
          else if sharesKey (qp_rewriteTargetsSet q) (hh_rewriteTargetsSet h)
               then Some errNotExclusive
               else None
      | _, _ => Some errMissingTargets
      end
  | _, _ => None
  end.

Definition InitConfig (cfg : Config) : Result Config :=
  match Rewrites cfg with
  | None => Ok cfg
  | Some rw0 =>
      match ByQueryParameter rw0, ByHTTPHeader rw0 with
      | None, None => Ok cfg
      | _, _ =>
          let rw := materialize (applyDefaults rw0) in
          match checkExclusive rw with
          | Some e => Err e
          | None => Ok (setRewrites rw cfg)
          end
      end
  end.

End Authz.

(** ** Package proxy: data (proxy.go:35-50, 123-130) *)

(** [user.Info], as far as [Handle] reads it. *)
Record UserInfo : Type := mkUserInfo {
  GetName : string;
  GetGroups : list string
}.

(** [authorizer.AttributesRecord]. *)
Record AttributesRecord : Type := mkAttributesRecord {
  User : UserInfo;
  Verb : string;
  ar_Namespace : string;
  ar_APIGroup : string;
  ar_APIVersion : string;
  ar_Resource : string;
  ar_Subresource : string;
  ar_Name : string;
  ResourceRequest : bool;
  Path : string
}.

(** Modelled from the spec: the declaration of [authz.RewriteValueSource]
    and of its constants [RewriteValueSourceQueryParams] and
    [RewriteValueSourceHTTPHeader] is not in auth.go; the data model names
    the source of a captured value as one of exactly these two kinds. *)
Inductive RewriteValueSource : Type :=
| RewriteValueSourceQueryParams
| RewriteValueSourceHTTPHeader.

Definition RewriteValueSource_eqb (a b : RewriteValueSource) : bool :=
  match a, b with
  | RewriteValueSourceQueryParams, RewriteValueSourceQueryParams => true
  | RewriteValueSourceHTTPHeader, RewriteValueSourceHTTPHeader => true
  | _, _ => false
  end.

(** [rewriteParameter]. *)
Record rewriteParameter : Type := mkRewriteParameter {
  value : string;
  source : RewriteValueSource
}.

(** The parts of [*http.Request] the proxy reads: [r.Method],
    [r.URL.Path], [r.URL.Query()] and [r.Header]. *)
Record Request : Type := mkRequest {
  Method : string;
  URL_Path : string;
  URL_Query : gmap string (list string);
  Header : gmap string (list string)
}.

(** [authn.AuthnHeaderConfig], with the fields proxy.go:246-251 copies. *)
Record AuthnHeaderConfig : Type := mkAuthnHeaderConfig {
  Enabled : bool;
  UserFieldName : string;
  GroupsFieldName : string;
  GroupSeparator : string
}.

(** [authorizer.Decision]. *)
Inductive Decision : Type :=
| DecisionDeny
| DecisionAllow
| DecisionNoOpinion.

Definition Decision_eqb (a b : Decision) : bool :=
  match a, b with
  | DecisionDeny, DecisionDeny => true
  | DecisionAllow, DecisionAllow => true
  | DecisionNoOpinion, DecisionNoOpinion => true
  | _, _ => false
  end.

(** What [Authorize] hands back: [(authorized, reason, err)]. *)
Record AuthorizeReply : Type := mkAuthorizeReply {
  authorized : Decision;
  reason : string;
  err : option string
}.

(** What [AuthenticateRequest] hands back: [(u, ok, err)]; [u] may be nil. *)
Record AuthenticateReply : Type := mkAuthenticateReply {
  au_response : option UserInfo;
  au_ok : bool;
  au_err : option string
}.

Definition StatusBadRequest : nat := 400.
Definition StatusUnauthorized : nat := 401.
Definition StatusForbidden : nat := 403.
Definition StatusInternalServerError : nat := 500.

(** The switch on [r.Method] (proxy.go:134-146). *)
Definition apiVerb (method : string) : string :=
  if String.eqb method "POST" then "create"
  else if String.eqb method "GET" then "get"
  else if String.eqb method "PUT" then "update"
  else if String.eqb method "PATCH" then "patch"
  else if String.eqb method "DELETE" then "delete"
  else "".

(** [strings.Join]. *)
Fixpoint Join (elems : list string) (sep : string) : string :=
  match elems with
  | [] => ""
  | [e] => e
  | e :: rest => e +:+ sep +:+ Join rest sep
  end.

(** How [Handle] ends: the boolean it returns, what [http.Error] wrote, and
    the request as the upstream will see it. *)
Record Handled : Type := mkHandled {
  proceed : bool;
  response : option (nat * string);
  forwarded : Request
}.

(** The end of the authorization loop of [Handle]. *)
Inductive Verdict : Type :=
| AllAllowed
| Rejected (status : nat) (msg : string).

(** A reply without error whose decision is [DecisionAllow]. *)
Definition allows (reply : AuthorizeReply) : Prop :=
  err reply = None ∧ authorized reply = DecisionAllow.

Section Proxy.

(** *** Collaborators and libraries *)

(** [text/template]: [Parse] yields a template or an error, [Execute]
    yields what it wrote to the buffer and possibly an error. *)
Context {Template : Type}.
Variable Parse : string -> Result Template.
Variable Execute : Template -> string -> string * option string.

(** [textproto.CanonicalMIMEHeaderKey]. *)
Variable CanonicalMIMEHeaderKey : string -> string.

(** The authorizer, with whatever state (cache, connection) it keeps. *)
Context {AuthorizerState : Type}.
Variable Authorize : AuthorizerState -> AttributesRecord -> AuthorizerState * AuthorizeReply.

(** The authenticator. *)
Variable AuthenticateRequest : Request -> AuthenticateReply.

(** [http.Header.Get]: the first value under the canonical key, or [""]. *)
Definition Header_Get (h : gmap string (list string)) (key : string) : string :=
  match h !! CanonicalMIMEHeaderKey key with
  | Some (v :: _) => v
  | _ => ""
  end.

(** [http.Header.Set]. *)
Definition Header_Set (h : gmap string (list string)) (key v : string) :
    gmap string (list string) :=
  <[CanonicalMIMEHeaderKey key := [v]]> h.

(** *** templateWithValue (proxy.go:273-287) *)

(** Lines 274-279. *)
Definition isRewriteTarget (attribute : string) (rewriteTargets : list string) : bool :=
  fold_left (fun rewrite t => if String.eqb t attribute then true else rewrite)
            rewriteTargets false.

(** [Parse] returns a nil template with its error; the error is dropped
    and [Execute] is called on the template all the same. [Execute] reads
    the fields of its receiver, so on nil it panics. The error of
    [Execute] is dropped and the buffer returned. *)
Definition templateWithValue (attribute templateString value : string)
    (rewriteTargets : list string) : Outcome string :=
  if negb (isRewriteTarget attribute rewriteTargets) then Returned templateString
  else
    let tmpl := match Parse templateString with
                | Ok t => Some t
                | Err _ => None
                end in
    match tmpl with
    | Some t => Returned (fst (Execute t value))
    | None => Panicked nilDereference
    end.

(** *** GetRequestAttributes (proxy.go:133-228) *)

(** Lines 153-160. *)
Definition queryParameters (rw : SubjectAccessReviewRewrites) (r : Request) :
    list rewriteParameter :=
  match ByQueryParameter rw with
  | Some q =>
      if negb (String.eqb (qp_Name q) "") then
        match URL_Query r !! qp_Name q with
        | Some params =>
            map (fun param => mkRewriteParameter param RewriteValueSourceQueryParams) params
        | None => []
        end
      else []
  | None => []
  end.

(** Lines 161-166. *)
Definition headerParameters (rw : SubjectAccessReviewRewrites) (r : Request) :
    list rewriteParameter :=
  match ByHTTPHeader rw with
  | Some h =>
      if negb (String.eqb (hh_Name h) "") then
        let param := Header_Get (Header r) (hh_Name h) in
        if negb (String.eqb param "") then
          [mkRewriteParameter param RewriteValueSourceHTTPHeader]
        else []
      else []
  | None => []
  end.

(** [parameters] when line 167 is reached. *)
Definition collectParameters (rw : SubjectAccessReviewRewrites) (r : Request) :
    list rewriteParameter :=
  queryParameters rw r ++ headerParameters rw r.

(** Lines 172-177; the rule of the parameter's source is dereferenced. *)
Definition targetsOf (rw : SubjectAccessReviewRewrites) (p : rewriteParameter) :
    Outcome (list string) :=
  if RewriteValueSource_eqb (source p) RewriteValueSourceQueryParams then
    match ByQueryParameter rw with
    | Some q => Returned (sliceElems (qp_RewriteTargets q))
    | None => Panicked nilDereference
    end
  else if RewriteValueSource_eqb (source p) RewriteValueSourceHTTPHeader then
    match ByHTTPHeader rw with
    | Some h => Returned (sliceElems (hh_RewriteTargets h))
    | None => Panicked nilDereference
    end
  else Returned [].

(** Lines 178-188: the six fields are rendered in the order written. *)
Definition rewrittenAttributes (u : UserInfo) (verb : string) (ra : ResourceAttributes)
    (v : string) (rewriteTargets : list string) : Outcome AttributesRecord :=
  ns <-! templateWithValue Namespace (ra_Namespace ra) v rewriteTargets ;;
  group <-! templateWithValue ApiGroup (ra_APIGroup ra) v rewriteTargets ;;
  version <-! templateWithValue APIVersion (ra_APIVersion ra) v rewriteTargets ;;
  res <-! templateWithValue Resource (ra_Resource ra) v rewriteTargets ;;
  subres <-! templateWithValue Subresource (ra_Subresource ra) v rewriteTargets ;;
  name <-! templateWithValue Name (ra_Name ra) v rewriteTargets ;;
  Returned (mkAttributesRecord u verb ns group version res subres name true "").

(** The body of the loop at lines 171-190. *)
Definition attributesFor (u : UserInfo) (verb : string) (ra : ResourceAttributes)
    (rw : SubjectAccessReviewRewrites) (p : rewriteParameter) : Outcome AttributesRecord :=
  rewriteTargets <-! targetsOf rw p ;;
  rewrittenAttributes u verb ra (value p) rewriteTargets.

(** The string [templateWithValue] returns when it returns: the template
    itself for a field that is no target, the buffer after [Execute]
    for a target whose template parsed. *)
Definition rendered (attribute templateString value : string)
    (rewriteTargets : list string) : string :=
  if isRewriteTarget attribute rewriteTargets then
    match Parse templateString with
    | Ok t => fst (Execute t value)
    | Err _ => ""
    end
  else templateString.

(** The targets lines 172-177 select for a parameter whose rule is set. *)
Definition targetsFor (rw : SubjectAccessReviewRewrites) (p : rewriteParameter) : list string :=
  match source p with
  | RewriteValueSourceQueryParams =>
      match ByQueryParameter rw with
      | Some q => sliceElems (qp_RewriteTargets q)
      | None => []
      end
  | RewriteValueSourceHTTPHeader =>
      match ByHTTPHeader rw with
      | Some h => sliceElems (hh_RewriteTargets h)
      | None => []
      end
  end.

(** The record lines 178-188 build when all six fields render. *)
Definition renderedAttributes (u : UserInfo) (verb : string) (ra : ResourceAttributes)
    (rw : SubjectAccessReviewRewrites) (p : rewriteParameter) : AttributesRecord :=
  let rewriteTargets := targetsFor rw p in
  mkAttributesRecord u verb
    (rendered Namespace (ra_Namespace ra) (value p) rewriteTargets)
    (rendered ApiGroup (ra_APIGroup ra) (value p) rewriteTargets)
    (rendered APIVersion (ra_APIVersion ra) (value p) rewriteTargets)
    (rendered Resource (ra_Resource ra) (value p) rewriteTargets)
    (rendered Subresource (ra_Subresource ra) (value p) rewriteTargets)
    (rendered Name (ra_Name ra) (value p) rewriteTargets)
    true "".

(** The six fields of the template with their names. *)
Definition templateFields (ra : ResourceAttributes) : list (string * string) :=
  [(Namespace, ra_Namespace ra); (ApiGroup, ra_APIGroup ra); (APIVersion, ra_APIVersion ra);
   (Resource, ra_Resource ra); (Subresource, ra_Subresource ra); (Name, ra_Name ra)].

(** Every field among [rewriteTargets] has a template that parses. *)
Definition targetsParse (ra : ResourceAttributes) (rewriteTargets : list string) : Prop :=
  ∀ attribute templateString,
    (attribute, templateString) ∈ templateFields ra →
    attribute ∈ rewriteTargets →
    ∃ t, Parse templateString = Ok t.

(** The loop at lines 171-190, appending to [allAttrs]. *)
Fixpoint rewriteAll (u : UserInfo) (verb : string) (ra : ResourceAttributes)
    (rw : SubjectAccessReviewRewrites) (parameters : list rewriteParameter)
    (allAttrs : list AttributesRecord) : Outcome (list AttributesRecord) :=
  match parameters with
  | [] => Returned allAttrs
  | p :: rest =>
      attrs <-! attributesFor u verb ra rw p ;;
      rewriteAll u verb ra rw rest (allAttrs ++ [attrs])
  end.

Definition GetRequestAttributes (authzConfig : Config) (u : UserInfo) (r : Request) :
    Outcome (list AttributesRecord) :=
  let verb := apiVerb (Method r) in
  match cfg_ResourceAttributes authzConfig with
  | Some ra =>
      match Rewrites authzConfig with
      | Some rw =>
          let parameters := collectParameters rw r in
          if Nat.eqb (List.length parameters) 0 then Returned []
          else rewriteAll u verb ra rw parameters []
      | None =>
          Returned
            [mkAttributesRecord u verb (ra_Namespace ra) (ra_APIGroup ra) (ra_APIVersion ra)
               (ra_Resource ra) (ra_Subresource ra) (ra_Name ra) true ""]
      end
  | None =>
      Returned [mkAttributesRecord u verb "" "" "" "" "" "" false (URL_Path r)]
  end.

(** *** Handle (proxy.go:63-117) *)

Definition rejection (kind : string) (u : UserInfo) (attrs : AttributesRecord) : string :=
  kind +:+ " (user=" +:+ GetName u +:+ ", verb=" +:+ Verb attrs
       +:+ ", resource=" +:+ ar_Resource attrs
       +:+ ", subresource=" +:+ ar_Subresource attrs +:+ ")".

(** Lines 91-106. Next to the authorizer's state and the verdict, the
    attribute sets handed to [Authorize] are recorded, in call order. *)
Fixpoint authorizeAll (u : UserInfo) (st : AuthorizerState) (allAttrs : list AttributesRecord) :
    AuthorizerState * list AttributesRecord * Verdict :=
  match allAttrs with
  | [] => (st, [], AllAllowed)
  | attrs :: rest =>
      let (st', reply) := Authorize st attrs in
      match err reply with
      | Some _ =>
          (st', [attrs],
           Rejected StatusInternalServerError (rejection "Authorization error" u attrs))
      | None =>
          if negb (Decision_eqb (authorized reply) DecisionAllow) then
            (st', [attrs], Rejected StatusForbidden (rejection "Forbidden" u attrs))
          else
            let '(st'', calls, verdict) := authorizeAll u st' rest in
            (st'', attrs :: calls, verdict)
      end
  end.

(** The replies of the authorizer when it is asked about every set in
    turn, none skipped. *)
Fixpoint repliesInOrder (st : AuthorizerState) (allAttrs : list AttributesRecord) :
    list AuthorizeReply :=
  match allAttrs with
  | [] => []
  | attrs :: rest =>
      let (st', reply) := Authorize st attrs in
      reply :: repliesInOrder st' rest
  end.

(** Lines 108-114. *)
Definition propagateIdentity (headerCfg : AuthnHeaderConfig) (u : UserInfo) (req : Request) :
    Request :=
  if Enabled headerCfg then
    let h1 := Header_Set (Header req) (UserFieldName headerCfg) (GetName u) in
    let h2 := Header_Set h1 (GroupsFieldName headerCfg)
                (Join (GetGroups u) (GroupSeparator headerCfg)) in
    mkRequest (Method req) (URL_Path req) (URL_Query req) h2
  else req.

(** Lines 63-117. The audiences of lines 64-68 only travel in the context
    handed to the collaborators; the log lines are left out. *)
Definition Handle (headerCfg : AuthnHeaderConfig) (authzConfig : Config)
    (st : AuthorizerState) (req : Request) :
    Outcome (AuthorizerState * list AttributesRecord * Handled) :=
  let reply := AuthenticateRequest req in
  let unauthorized :=
    Returned (st, [], mkHandled false (Some (StatusUnauthorized, "Unauthorized")) req) in
  match au_err reply with
  | Some _ => unauthorized
  | None =>
      if negb (au_ok reply) then unauthorized
      else
        match au_response reply with
        | None => Panicked nilDereference
        | Some u =>
            allAttrs <-! GetRequestAttributes authzConfig u req ;;
            if Nat.eqb (List.length allAttrs) 0 then
              Returned
                (st, [],
                 mkHandled false
                   (Some (StatusBadRequest,
                          "Bad Request. The request or configuration is malformed."))
                   req)
            else
              let '(st', calls, verdict) := authorizeAll u st allAttrs in
              match verdict with
              | Rejected status msg =>
                  Returned (st', calls, mkHandled false (Some (status, msg)) req)
              | AllAllowed =>
                  Returned
                    (st', calls, mkHandled true None (propagateIdentity headerCfg u req))
              end
        end
  end.

End Proxy.

(** ** Instances of the libraries, for running the model *)

(** A reading of [text/template] for the templates the proxy is configured
    with: literal text and field actions [{{.Field}}], executed on the
    value [struct{ Value string }]. On such templates, and on a template
    whose action is never closed, [Parse] and [Execute] answer as the
    library does. Any other action is refused here as an error of
    [Parse]; the library accepts more. *)
Module ValueTemplate.

Inductive Node : Type :=
| TextNode (text : string)
| FieldNode (field : string).

Definition Template : Type := list Node.

Inductive Mode : Type :=
| InText (seen : string)
| InAction (seen : string).

Definition isSpace (c : ascii) : bool :=
  Ascii.eqb c " " || Ascii.eqb c "009" || Ascii.eqb c "010" || Ascii.eqb c "013".

Definition isAlphaNumeric (c : ascii) : bool :=
  let n := nat_of_ascii c in
  Ascii.eqb c "_" || Nat.leb 48 n && Nat.leb n 57 || Nat.leb 65 n && Nat.leb n 90
  || Nat.leb 97 n && Nat.leb n 122.

Fixpoint dropSpaces (s : string) : string :=
  match s with
  | String c rest => if isSpace c then dropSpaces rest else s
  | EmptyString => s
  end.

(** The identifier at the head of [s], then only spaces. *)
Fixpoint identifier (s : string) : option string :=
  match s with
  | EmptyString => Some ""
  | String c rest =>
      if isAlphaNumeric c then String c <$> identifier rest
      else if String.eqb (dropSpaces s) "" then Some ""
      else None
  end.

Definition isDigit (c : ascii) : bool :=
  let n := nat_of_ascii c in Nat.leb 48 n && Nat.leb n 57.

(** The action between the delimiters: [.Field], spaces around it; a dot
    before a digit starts a number, not a field. *)
Definition action (body : string) : Result Node :=
  match dropSpaces body with
  | String "." rest =>
      match identifier rest with
      | Some (String c name) =>
          if isDigit c then Err "bad number syntax" else Ok (FieldNode (String c name))
      | _ => Err "unexpected action"
      end
  | _ => Err "unexpected action"
  end.

Definition textNodes (seen : string) : list Node :=
  if String.eqb seen "" then [] else [TextNode seen].

Definition push (seen : string) (c : ascii) : string := seen +:+ String c "".

Definition cons_ok (n : list Node) (r : Result Template) : Result Template :=
  match r with
  | Ok t => Ok (n ++ t)
  | Err e => Err e
  end.

Fixpoint scan (m : Mode) (s : string) : Result Template :=
  match s with
  | EmptyString =>
      match m with
      | InText seen => Ok (textNodes seen)
      | InAction _ => Err "unclosed action"
      end
  | String c rest =>
      match m with
      | InText seen =>
          match rest with
          | String c' rest' =>
              if Ascii.eqb c "{" && Ascii.eqb c' "{"
              then cons_ok (textNodes seen) (scan (InAction "") rest')
              else scan (InText (push seen c)) rest
          | EmptyString => Ok (textNodes (push seen c))
          end
      | InAction seen =>
          match rest with
          | String c' rest' =>
              if Ascii.eqb c "}" && Ascii.eqb c' "}"
              then match action seen with
                   | Ok n => cons_ok [n] (scan (InText "") rest')
                   | Err e => Err e
                   end
              else scan (InAction (push seen c)) rest
          | EmptyString => Err "unclosed action"
          end
      end
  end.

(** [template.New("valueTemplate").Parse]. *)
Definition Parse (text : string) : Result Template := scan (InText "") text.

(** [Execute] on [struct{ Value string }]: output stops at the first
    field the value does not have. *)
Fixpoint Execute (t : Template) (v : string) : string * option string :=
  match t with
  | [] => ("", None)
  | TextNode text :: rest =>
      let (out, e) := Execute rest v in (text +:+ out, e)
  | FieldNode field :: rest =>
      if String.eqb field "Value" then
        let (out, e) := Execute rest v in (v +:+ out, e)
      else ("", Some ("can't evaluate field " +:+ field))
  end.

End ValueTemplate.

(** [textproto.CanonicalMIMEHeaderKey]: a key of header-field bytes gets
    an upper-case letter first and after each hyphen and lower-case
    letters elsewhere; any other key is returned as it is. *)
Module Textproto.

Definition isLower (c : ascii) : bool :=
  let n := nat_of_ascii c in Nat.leb 97 n && Nat.leb n 122.

Definition isUpper (c : ascii) : bool :=
  let n := nat_of_ascii c in Nat.leb 65 n && Nat.leb n 90.

Definition isDigit (c : ascii) : bool :=
  let n := nat_of_ascii c in Nat.leb 48 n && Nat.leb n 57.

Definition validHeaderFieldByte (c : ascii) : bool :=
  isLower c || isUpper c || isDigit c
  || existsb (Ascii.eqb c) (list_ascii_of_string "!#$%&'*+-.^_`|~").

Fixpoint allValid (s : string) : bool :=
  match s with
  | EmptyString => true
  | String c rest => validHeaderFieldByte c && allValid rest
  end.

Fixpoint canonical (upper : bool) (s : string) : string :=
  match s with
  | EmptyString => EmptyString
  | String c rest =>
      let c' :=
        if upper && isLower c then ascii_of_nat (nat_of_ascii c - 32)
        else if negb upper && isUpper c then ascii_of_nat (nat_of_ascii c + 32)
        else c in
      String c' (canonical (Ascii.eqb c' "-") rest)
  end.

Definition CanonicalMIMEHeaderKey (s : string) : string :=
  if allValid s then canonical true s else s.

End Textproto.

(** The configuration [InitConfig] hands back when both rules carry
    targets that pass the check. *)
Definition bothMaterialized (cfg : Config) (q : QueryParameterRewriteConfig)
    (h : HTTPHeaderRewriteConfig) (ql hl : list string) : Config :=
  setRewrites
    (mkSubjectAccessReviewRewrites
       (Some (qp_setRewriteTargetsSet (Some (buildSet ql)) q))
       (Some (hh_setRewriteTargetsSet (Some (buildSet hl)) h)))
    cfg.


(** The configuration [InitConfig] hands back for a lone query-parameter
    rule, and for a lone header rule, whose targets were nil. *)
Definition queryDefaulted (cfg : Config) (q : QueryParameterRewriteConfig) : Config :=
  setRewrites
    (mkSubjectAccessReviewRewrites
       (Some (mkQueryParameterRewriteConfig (qp_Name q) (Some allResourceAttributesNames)
                (Some (buildSet allResourceAttributesNames))))
       None)
    cfg.

Definition headerDefaulted (cfg : Config) (h : HTTPHeaderRewriteConfig) : Config :=
  setRewrites
    (mkSubjectAccessReviewRewrites
       None
       (Some (mkHTTPHeaderRewriteConfig (hh_Name h) (Some allResourceAttributesNames)
                (Some (buildSet allResourceAttributesNames)))))
    cfg.

(** ** Sample configurations and requests *)

Definition alice : UserInfo := mkUserInfo "alice" ["dev"; "ops"].

(** [{resource: "pods", namespace: "{{.Value}}"}]. *)
Definition podsTemplate : ResourceAttributes :=
  mkResourceAttributes "{{.Value}}" "" "" "pods" "" "".

(** The same with a namespace template that is never closed. *)
Definition unclosedTemplate : ResourceAttributes :=
  mkResourceAttributes "{{.Value" "" "" "pods" "" "".

Definition queryRule (targets : option (list string)) : QueryParameterRewriteConfig :=
  mkQueryParameterRewriteConfig "ns" targets None.

Definition headerRule (targets : option (list string)) : HTTPHeaderRewriteConfig :=
  mkHTTPHeaderRewriteConfig "X-Proj" targets None.

Definition configOf (q : option QueryParameterRewriteConfig)
    (h : option HTTPHeaderRewriteConfig) (ra : option ResourceAttributes) : Config :=
  mkConfig (Some (mkSubjectAccessReviewRewrites q h)) ra "".

(** Both rules, targets [{namespace}] and [{name}]. *)
Definition disjointConfig : Config :=
  configOf (Some (queryRule (Some [Namespace]))) (Some (headerRule (Some [Name])))
           (Some podsTemplate).

(** Both rules, [namespace] in both target lists. *)
Definition overlappingConfig : Config :=
  configOf (Some (queryRule (Some [Namespace; Name]))) (Some (headerRule (Some [Namespace])))
           (Some podsTemplate).

(** Both rules, the header rule without targets. *)
Definition missingTargetsConfig : Config :=
  configOf (Some (queryRule (Some [Namespace]))) (Some (headerRule None)) (Some podsTemplate).

(** A lone query-parameter rule and a lone header rule, targets unset. *)
Definition loneQueryConfig : Config :=
  configOf (Some (queryRule None)) None (Some podsTemplate).

Definition loneHeaderConfig : Config :=
  configOf None (Some (headerRule None)) (Some podsTemplate).

Definition requestOf (method path : string) (query headers : list (string * list string)) :
    Request :=
  mkRequest method path (list_to_map query) (list_to_map headers).

(** [GET /metrics] with the header [X-Proj: teamA]. *)
Definition headerRequest : Request :=
  requestOf "GET" "/metrics" [] [("X-Proj", ["teamA"])].

(** [GET /metrics?ns=a&ns=b]. *)
Definition queryRequest : Request :=
  requestOf "GET" "/metrics" [("ns", ["a"; "b"])] [].

(** [GET /metrics?ns=a&ns=b] with the header [X-Proj: teamA]. *)
Definition bothRequest : Request :=
  requestOf "GET" "/metrics" [("ns", ["a"; "b"])] [("X-Proj", ["teamA"])].

(** [GET /metrics] with nothing to capture. *)
Definition plainRequest : Request := requestOf "GET" "/metrics" [] [].

(** [GET /metrics] with [X-Proj] sent empty, and sent twice. *)
Definition emptyHeaderRequest : Request :=
  requestOf "GET" "/metrics" [] [("X-Proj", [""; "teamB"])].

Definition repeatedHeaderRequest : Request :=
  requestOf "GET" "/metrics" [] [("X-Proj", ["teamA"; "teamB"])].

(** The proxy over the sample libraries. *)
Definition resolve : Config -> UserInfo -> Request -> Outcome (list AttributesRecord) :=
  GetRequestAttributes ValueTemplate.Parse ValueTemplate.Execute Textproto.CanonicalMIMEHeaderKey.

(** Header rule with target [{namespace}], on either template. *)
Definition headerConfig : Config :=
  configOf None (Some (headerRule (Some [Namespace]))) (Some podsTemplate).

Definition unclosedConfig : Config :=
  configOf None (Some (headerRule (Some [Namespace]))) (Some unclosedTemplate).

(** Query rule with target [{namespace}]. *)
Definition queryConfig : Config :=
  configOf (Some (queryRule (Some [Namespace]))) None (Some podsTemplate).

(** The pods template with no rewrites, and a configuration with neither. *)
Definition staticConfig : Config := mkConfig None (Some podsTemplate) "".
Definition emptyConfig : Config := mkConfig None None "".

(** A request without its header [key]. *)
Definition withoutHeader (canonicalKey : string) (r : Request) : Request :=
  mkRequest (Method r) (URL_Path r) (URL_Query r) (delete canonicalKey (Header r)).

(** A request whose header [key] carries the values [vs]. *)
Definition withHeader (canonicalKey : string) (vs : list string) (r : Request) : Request :=
  mkRequest (Method r) (URL_Path r) (URL_Query r) (<[canonicalKey := vs]> (Header r)).

(** An authorizer that counts its calls, allows every namespace but
    [b] and fails on the namespace [down]. *)
Definition countingAuthorize (calls : nat) (attrs : AttributesRecord) : nat * AuthorizeReply :=
  (S calls,
   if String.eqb (ar_Namespace attrs) "down"
   then mkAuthorizeReply DecisionNoOpinion "" (Some "connection refused")
   else if String.eqb (ar_Namespace attrs) "b"
        then mkAuthorizeReply DecisionDeny "no rule matches" None
        else mkAuthorizeReply DecisionAllow "" None).

(** An authenticator that knows every caller as alice. *)
Definition aliceAuthenticate (_ : Request) : AuthenticateReply :=
  mkAuthenticateReply (Some alice) true None.

Definition namespaceRecord (ns : string) : AttributesRecord :=
  mkAttributesRecord alice "get" ns "" "" "pods" "" "" true "".

Definition identityHeaders : AuthnHeaderConfig :=
  mkAuthnHeaderConfig true "x-remote-user" "x-remote-groups" "|".

(** [Handle] over the sample libraries and collaborators. *)
Definition handle : Config -> nat -> Request -> Outcome (nat * list AttributesRecord * Handled) :=
  Handle ValueTemplate.Parse ValueTemplate.Execute Textproto.CanonicalMIMEHeaderKey
         countingAuthorize aliceAuthenticate identityHeaders.

(** [GET /metrics?ns=a&ns=b&ns=c]. *)
Definition threeRequest : Request :=
  requestOf "GET" "/metrics" [("ns", ["a"; "b"; "c"])] [].


(** ** Package proxy: Config and DeepCopy (proxy.go:35-39, 52-54, 119-125, 230-271) *)

(** [authn.X509Config], with the field proxy.go:241 copies. *)
Record X509Config : Type := mkX509Config {
  ClientCAFile : string
}.

(** [authn.AuthnConfig]. Its declaration is outside these files: [X509]
    and [au_Header] are the fields [DeepCopy] copies, [au_other] stands
    for every other field, the token settings [Handle] reads among them;
    their type is left open. *)
Record AuthnConfig (Other : Type) : Type := mkAuthnConfig {
  X509 : option X509Config;
  au_Header : option AuthnHeaderConfig;
  au_other : Other
}.
Arguments mkAuthnConfig {Other} _ _ _.
Arguments X509 {Other} _.
Arguments au_Header {Other} _.
Arguments au_other {Other} _.

(** [proxy.Config]. *)
Record ProxyConfig (Other : Type) : Type := mkProxyConfig {
  Authentication : option (AuthnConfig Other);
  Authorization : option Config
}.
Arguments mkProxyConfig {Other} _ _.
Arguments Authentication {Other} _.
Arguments Authorization {Other} _.

(** [DeepCopy]; [zero] is the zero value of the fields left out, as
    [&authn.AuthnConfig{}] has them. *)
Definition DeepCopy {Other : Type} (zero : Other) (c : ProxyConfig Other) : ProxyConfig Other :=
  let authentication :=
    match Authentication c with
    | Some a =>
        mkAuthnConfig
          (match X509 a with
           | Some x => Some (mkX509Config (ClientCAFile x))
           | None => None
           end)
          (match au_Header a with
           | Some h =>
               Some (mkAuthnHeaderConfig (Enabled h) (UserFieldName h) (GroupsFieldName h)
                       (GroupSeparator h))
           | None => None
           end)
          zero
    | None => mkAuthnConfig None None zero
    end in
  let authorization :=
    match Authorization c with
    | Some z =>
        match cfg_ResourceAttributes z with
        | Some ra =>
            Some (mkConfig None
                    (Some (mkResourceAttributes (ra_Namespace ra) (ra_APIGroup ra)
                             (ra_APIVersion ra) (ra_Resource ra) (ra_Subresource ra)
                             (ra_Name ra)))
                    "")
        | None => None
        end
    | None => None
    end in
  mkProxyConfig (Some authentication) authorization.

(** [GetRequestAttributes] on the getter [new] builds from
    [config.Authorization] (proxy.go:52-54, 119-125): the pointer may be
    nil, and line 150 reads through it. *)
Definition getterAttributes {Template : Type} (Parse : string -> Result Template)
    (Execute : Template -> string -> string * option string)
    (CanonicalMIMEHeaderKey : string -> string)
    (authzConfig : option Config) (u : UserInfo) (r : Request) :
    Outcome (list AttributesRecord) :=
  match authzConfig with
  | Some cfg => GetRequestAttributes Parse Execute CanonicalMIMEHeaderKey cfg u r
  | None => Panicked nilDereference
  end.

(** ** Reading a configuration through its pointers *)

(** [cfg.Rewrites.ByQueryParameter] and [cfg.Rewrites.ByHTTPHeader], nil
    when [cfg.Rewrites] is. *)
Definition queryRuleOf (cfg : Config) : option QueryParameterRewriteConfig :=
  match Rewrites cfg with
  | Some rw => ByQueryParameter rw
  | None => None
  end.

Definition headerRuleOf (cfg : Config) : option HTTPHeaderRewriteConfig :=
  match Rewrites cfg with
  | Some rw => ByHTTPHeader rw
  | None => None
  end.

(** The target list of either rule, nil when the rule is. *)
Definition queryTargetsOf (cfg : Config) : option (list string) :=
  match queryRuleOf cfg with
  | Some q => qp_RewriteTargets q
  | None => None
  end.

Definition headerTargetsOf (cfg : Config) : option (list string) :=
  match headerRuleOf cfg with
  | Some h => hh_RewriteTargets h
  | None => None
  end.

(** ** Shapes of records and of target lists *)

(** The record whose six fields are the template's, as configured. *)
Definition verbatimRecord (u : UserInfo) (verb : string) (ra : ResourceAttributes) :
    AttributesRecord :=
  mkAttributesRecord u verb (ra_Namespace ra) (ra_APIGroup ra) (ra_APIVersion ra)
    (ra_Resource ra) (ra_Subresource ra) (ra_Name ra) true "".

(** The record for no template. *)
Definition pathRecord (u : UserInfo) (verb path : string) : AttributesRecord :=
  mkAttributesRecord u verb "" "" "" "" "" "" false path.

(** Two target lists name the same of the six fields. *)
Definition sameTargets (l l' : list string) : Prop :=
  ∀ a, a ∈ allResourceAttributesNames → (a ∈ l ↔ a ∈ l').

(** Two rewrite blocks with the same rules under the same names, whose
    target lists name the same of the six fields. *)
Definition sameRules (rw rw' : SubjectAccessReviewRewrites) : Prop :=
  match ByQueryParameter rw, ByQueryParameter rw' with
  | Some q, Some q' =>
      qp_Name q = qp_Name q'
      ∧ sameTargets (sliceElems (qp_RewriteTargets q)) (sliceElems (qp_RewriteTargets q'))
  | None, None => True
  | _, _ => False
  end
  ∧ match ByHTTPHeader rw, ByHTTPHeader rw' with
    | Some h, Some h' =>
        hh_Name h = hh_Name h'
        ∧ sameTargets (sliceElems (hh_RewriteTargets h)) (sliceElems (hh_RewriteTargets h'))
    | None, None => True
    | _, _ => False
    end.

(** No rule of the block has a target. *)
Definition noTargets (rw : SubjectAccessReviewRewrites) : Prop :=
  (∀ q, ByQueryParameter rw = Some q → sliceElems (qp_RewriteTargets q) = [])
  ∧ (∀ h, ByHTTPHeader rw = Some h → sliceElems (hh_RewriteTargets h) = []).

(** The caller was authenticated as [u]: no error, [ok], a response. *)
Definition authenticatedAs (reply : AuthenticateReply) (u : UserInfo) : Prop :=
  au_err reply = None ∧ au_ok reply = true ∧ au_response reply = Some u.

(** The caller was turned away: an error, or not [ok]. *)
Definition unauthenticated (reply : AuthenticateReply) : Prop :=
  au_err reply ≠ None ∨ au_ok reply = false.

(** ** Package kubetest (proxy.go:304-457) *)

Module Kubetest.

Section Scenarios.

(** What the functions of a scenario act on besides the context: the
    cluster and whatever else they close over. *)
Context {World : Type}.

(** [Finalizer]: [func() error]. *)
Definition Finalizer : Type := World -> World * option string.

(** [ScenarioContext]. *)
Record ScenarioContext : Type := mkScenarioContext {
  ctx_Namespace : string;
  ctx_Finalizer : list Finalizer
}.

(** [AddFinalizer]. *)
Definition AddFinalizer (f : Finalizer) (ctx : ScenarioContext) : ScenarioContext :=
  mkScenarioContext (ctx_Namespace ctx) (ctx_Finalizer ctx ++ [f]).

(** [Setup], [Condition] and [Check]: [func(ctx *ScenarioContext) error].
    The context is behind a pointer, so the function may change it. *)
Definition Step : Type := World -> ScenarioContext -> World * ScenarioContext * option string.

(** [RunOpts]: [func(ctx *ScenarioContext) *ScenarioContext]. [Run] drops
    the pointer returned; what counts is the change made through the
    argument. An option may panic. *)
Definition RunOpts : Type := World -> ScenarioContext -> Outcome (World * ScenarioContext).

(** [Timeout]: the duration is not used. *)
Definition Timeout (d : nat) : RunOpts := fun w ctx => Returned (w, ctx).

(** [Setups]. *)
Fixpoint Setups (ss : list Step) : Step :=
  fun w ctx =>
    match ss with
    | [] => (w, ctx, None)
    | s :: rest =>
        let '(w', ctx', e) := s w ctx in
        match e with
        | Some err => (w', ctx', Some err)
        | None => Setups rest w' ctx'
        end
    end.

(** [Conditions]. *)
Fixpoint Conditions (cs : list Step) : Step :=
  fun w ctx =>
    match cs with
    | [] => (w, ctx, None)
    | c :: rest =>
        let '(w', ctx', e) := c w ctx in
        match e with
        | Some err => (w', ctx', Some err)
        | None => Conditions rest w' ctx'
        end
    end.

(** [Checks]. *)
Fixpoint Checks (cs : list Step) : Step :=
  fun w ctx =>
    match cs with
    | [] => (w, ctx, None)
    | c :: rest =>
        let '(w', ctx', e) := c w ctx in
        match e with
        | Some err => (w', ctx', Some err)
        | None => Checks rest w' ctx'
        end
    end.

(** [Scenario]; a function field may be nil. *)
Record Scenario : Type := mkScenario {
  sc_Name : string;
  sc_Description : string;
  Given : option Step;
  When : option Step;
  Then : option Step
}.

(** What the subtest of [t.Run] ends with: the messages of [t.Fatalf] and
    [t.Errorf], in order. The subtest passed when there is none. *)
Definition passed (messages : list string) : bool :=
  match messages with
  | [] => true
  | _ => false
  end.

(** Lines 404-414, after the given setup: [hasGiven] is the test of line
    410. Calling a nil [Then] panics. *)
Definition whenThen (s : Scenario) (hasGiven : bool) (w : World) (ctx : ScenarioContext) :
    Outcome (World * ScenarioContext * list string) :=
  let '(w1, ctx1, messages) :=
    match When s with
    | Some when =>
        let '(w', ctx', e) := when w ctx in
        (w', ctx',
         match e with
         | Some err => ["failed to evaluate state: " +:+ err]
         | None => []
         end)
    | None => (w, ctx, [])
    end in
  if hasGiven then
    match Then s with
    | Some check =>
        let '(w2, ctx2, e) := check w1 ctx1 in
        Returned (w2, ctx2,
                  messages ++ match e with
                              | Some err => ["checks failed: " +:+ err]
                              | None => []
                              end)
    | None => Panicked nilDereference
    end
  else Returned (w1, ctx1, messages).

(** The function handed to [t.Run] (lines 397-415). [t.Fatalf] ends the
    subtest at once; [t.Errorf] lets it go on. *)
Definition subtest (s : Scenario) (w : World) (ctx : ScenarioContext) :
    Outcome (World * ScenarioContext * list string) :=
  match Given s with
  | Some given =>
      let '(w', ctx', e) := given w ctx in
      match e with
      | Some err => Returned (w', ctx', ["failed to create given setup: " +:+ err])
      | None => whenThen s true w' ctx'
      end
  | None => whenThen s false w ctx
  end.

(** Lines 385-387. *)
Fixpoint applyOpts (opts : list RunOpts) (w : World) (ctx : ScenarioContext) :
    Outcome (World * ScenarioContext) :=
  match opts with
  | [] => Returned (w, ctx)
  | o :: rest =>
      obind (o w ctx) (fun after => applyOpts rest after.1 after.2)
  end.

(** The deferred function of lines 389-395: a finalizer that fails makes
    it panic with the error. *)
Fixpoint runFinalizers (fs : list Finalizer) (w : World) : Outcome World :=
  match fs with
  | [] => Returned w
  | f :: rest =>
      let (w', e) := f w in
      match e with
      | Some err => Panicked err
      | None => runFinalizers rest w'
      end
  end.

(** [Run], when the subtest is among those selected to run: the world
    it leaves, the messages of the subtest, and the boolean [t.Run] gave.
    The finalizers are deferred after the options ran and read the context
    when [Run] returns; a panic of the subtest ends the process before
    they run. *)
Definition Run (s : Scenario) (opts : list RunOpts) (w : World) :
    Outcome (World * list string * bool) :=
  obind (applyOpts opts w (mkScenarioContext "default" [])) (fun started =>
  obind (subtest s started.1 started.2) (fun ended =>
  obind (runFinalizers (ctx_Finalizer ended.1.2) ended.1.1) (fun w' =>
  Returned (w', ended.2, passed ended.2)))).

End Scenarios.

End Kubetest.

(** ** More sample configurations and requests *)

(** A query rule whose targets repeat a name and hold one that is no field. *)
Definition noisyQueryConfig : Config :=
  configOf (Some (queryRule (Some [Namespace; "bogus"; Namespace]))) None (Some podsTemplate).

(** A query rule with an empty, non-nil target list, on the template whose
    namespace is never closed. *)
Definition emptyTargetsConfig : Config :=
  configOf (Some (queryRule (Some []))) None (Some unclosedTemplate).

(** A query rule without a name. *)
Definition unnamedConfig : Config :=
  configOf (Some (mkQueryParameterRewriteConfig "" (Some [Namespace]) None)) None
           (Some podsTemplate).

(** [GET /metrics?=x]: a query parameter with the empty name. *)
Definition unnamedRequest : Request := requestOf "GET" "/metrics" [("", ["x"])] [].

(** [HEAD /a?ns=a&ns=b] and [OPTIONS /b?ns=a&ns=b]. *)
Definition headRequest : Request := requestOf "HEAD" "/a" [("ns", ["a"; "b"])] [].
Definition optionsRequest : Request := requestOf "OPTIONS" "/b" [("ns", ["a"; "b"])] [].

(** [GET /metrics] with [X-Proj: teamA] and identity headers of the
    client's own making. *)
Definition spoofedRequest : Request :=
  requestOf "GET" "/metrics" []
    [("X-Proj", ["teamA"]); ("X-Remote-User", ["root"; "admin"]);
     ("X-Remote-Groups", ["system:masters"])].

(** An authenticator that turns every caller away. *)
Definition nobodyAuthenticate (_ : Request) : AuthenticateReply :=
  mkAuthenticateReply None false None.

(** An authenticator that says [ok] and hands back no user. *)
Definition ghostAuthenticate (_ : Request) : AuthenticateReply :=
  mkAuthenticateReply None true None.

(** [Handle] over the sample libraries, with the authenticator to choose. *)
Definition handleWith (authenticate : Request -> AuthenticateReply) :
    Config -> nat -> Request -> Outcome (nat * list AttributesRecord * Handled) :=
  Handle ValueTemplate.Parse ValueTemplate.Execute Textproto.CanonicalMIMEHeaderKey
         countingAuthorize authenticate identityHeaders.

(** The template of a proxy configuration, nil when a pointer on the way
    is. *)
Definition templateOf {Other : Type} (c : ProxyConfig Other) : option ResourceAttributes :=
  match Authorization c with
  | Some z => cfg_ResourceAttributes z
  | None => None
  end.

(** A proxy configuration with rewrites and one without a template. *)
Definition rewritingProxyConfig : ProxyConfig unit :=
  mkProxyConfig
    (Some (mkAuthnConfig (Some (mkX509Config "/etc/ca.crt")) (Some identityHeaders) tt))
    (Some disjointConfig).

Definition pathProxyConfig : ProxyConfig unit :=
  mkProxyConfig None (Some emptyConfig).

(** Steps that write their name into a log and succeed or fail. *)
Definition loggingStep (name : string) (ok : bool) : @Kubetest.Step (list string) :=
  fun w ctx => (w ++ [name], ctx, if ok then None else Some (name +:+ " failed")).

Definition loggingFinalizer (name : string) (ok : bool) : @Kubetest.Finalizer (list string) :=
  fun w => (w ++ [name], if ok then None else Some (name +:+ " failed")).

(** A setup that registers a finalizer. *)
Definition registeringStep (name : string) : @Kubetest.Step (list string) :=
  fun w ctx =>
    (w ++ [name], Kubetest.AddFinalizer (loggingFinalizer ("undo " +:+ name) true) ctx, None).

(** An option that registers a finalizer. *)
Definition registeringOpt (name : string) : @Kubetest.RunOpts (list string) :=
  fun w ctx =>
    Returned (w ++ [name], Kubetest.AddFinalizer (loggingFinalizer ("undo " +:+ name) true) ctx).

(** The record whose six fields are all rendered with the value [v]. *)
Definition allRendered {Template : Type} (Parse : string -> Result Template)
    (Execute : Template -> string -> string * option string)
    (u : UserInfo) (verb : string) (ra : ResourceAttributes) (v : string) : AttributesRecord :=
  mkAttributesRecord u verb
    (rendered Parse Execute Namespace (ra_Namespace ra) v allResourceAttributesNames)
    (rendered Parse Execute ApiGroup (ra_APIGroup ra) v allResourceAttributesNames)
    (rendered Parse Execute APIVersion (ra_APIVersion ra) v allResourceAttributesNames)
    (rendered Parse Execute Resource (ra_Resource ra) v allResourceAttributesNames)
    (rendered Parse Execute Subresource (ra_Subresource ra) v allResourceAttributesNames)
    (rendered Parse Execute Name (ra_Name ra) v allResourceAttributesNames)
    true "".

(** Exactly one rule is present, and its target list is nil. *)
Definition loneRuleUnset (rw : SubjectAccessReviewRewrites) : Prop :=
  match ByQueryParameter rw, ByHTTPHeader rw with
  | Some q, None => qp_RewriteTargets q = None
  | None, Some h => hh_RewriteTargets h = None
  | _, _ => False
  end.

(** The state of the authorizer after it was asked about [calls] in turn. *)
Definition stateAfter {AuthorizerState : Type}
    (Authorize : AuthorizerState -> AttributesRecord -> AuthorizerState * AuthorizeReply)
    (st : AuthorizerState) (calls : list AttributesRecord) : AuthorizerState :=
  fold_left (fun s attrs => (Authorize s attrs).1) calls st.

(** The template with a resource rendered from the value. *)
Definition valueTemplate : ResourceAttributes :=
  mkResourceAttributes "{{.Value}}" "apps" "v1" "deployments" "" "web-{{.Value}}".

Definition loneQueryValueConfig : Config :=
  configOf (Some (queryRule None)) None (Some valueTemplate).

(** Scenarios over the logging steps. *)
Definition failingGivenScenario : @Kubetest.Scenario (list string) :=
  Kubetest.mkScenario "given fails" ""
    (Some (Kubetest.Setups [registeringStep "namespace"; loggingStep "deploy" false;
                            loggingStep "expose" true]))
    (Some (loggingStep "request" true))
    (Some (loggingStep "status" true)).


(** No given setup, and checks that fail. *)
Definition uncheckedScenario : @Kubetest.Scenario (list string) :=
  Kubetest.mkScenario "no given" ""
    None
    (Some (loggingStep "request" true))
    (Some (loggingStep "status" false)).
Example canonical_key : Textproto.CanonicalMIMEHeaderKey "x-proj" = "X-Proj".
Proof. reflexivity. Qed.

Example parse_field :
  ValueTemplate.Parse "ns-{{ .Value }}-x"
  = Ok [ValueTemplate.TextNode "ns-"; ValueTemplate.FieldNode "Value"; ValueTemplate.TextNode "-x"].
Proof. reflexivity. Qed.

Example parse_unclosed : ValueTemplate.Parse "{{.Value" = Err "unclosed action".
Proof. reflexivity. Qed.

(** ** The verb of a request *)

(** C7. The switch on the request method yields create for POST, get for
    GET, update for PUT, patch for PATCH and delete for DELETE, and the
    empty verb for every other method; it is a total function, so no
    method is an error. *)
Theorem apiVerb_table (method : string) :
  apiVerb "POST" = "create"
  ∧ apiVerb "GET" = "get"
  ∧ apiVerb "PUT" = "update"
  ∧ apiVerb "PATCH" = "patch"
  ∧ apiVerb "DELETE" = "delete"
  ∧ (method ∉ ["POST"; "GET"; "PUT"; "PATCH"; "DELETE"] → apiVerb method = "").
Proof.
  repeat split; try reflexivity.
  intros Hother. unfold apiVerb.
  repeat match goal with
         | |- context [String.eqb method ?m] =>
             destruct (String.eqb_spec method m) as [-> | _];
             [exfalso; apply Hother; set_solver |]
         end.
  reflexivity.
Qed.

Lemma apiVerb_table_witness :
  ("HEAD" ∉ ["POST"; "GET"; "PUT"; "PATCH"; "DELETE"]) ∧ apiVerb "HEAD" = "".
Proof.
  assert (H : "HEAD" ∉ ["POST"; "GET"; "PUT"; "PATCH"; "DELETE"]).
  { rewrite !not_elem_of_cons. repeat split; try discriminate. apply not_elem_of_nil. }
  split; [exact H |].
  exact (proj2 (proj2 (proj2 (proj2 (proj2 (apiVerb_table "HEAD"))))) H).
Defined.

(** The verb depends on the letter case of the method as Go compares it. *)
Example apiVerb_lower_case : apiVerb "get" = "".
Proof. reflexivity. Qed.

(** ** Rendering one field *)

Lemma isRewriteTarget_fold (attribute : string) (rewriteTargets : list string) (seen : bool) :
  fold_left (fun rewrite t => if String.eqb t attribute then true else rewrite)
            rewriteTargets seen
  = seen || bool_decide (attribute ∈ rewriteTargets).
Proof.
  revert seen. induction rewriteTargets as [| t rest IH]; intros seen; cbn [fold_left].
  - rewrite bool_decide_eq_false_2 by apply not_elem_of_nil. by rewrite orb_false_r.
  - rewrite IH. destruct (String.eqb_spec t attribute) as [-> | Hne].
    + rewrite (bool_decide_eq_true_2 (attribute ∈ attribute :: rest))
        by apply list_elem_of_here.
      by rewrite orb_true_r.
    + f_equal. apply bool_decide_ext. rewrite elem_of_cons.
      split; [by right | intros [-> | Hin]; [congruence | done]].
Qed.

Lemma isRewriteTarget_elem (attribute : string) (rewriteTargets : list string) :
  isRewriteTarget attribute rewriteTargets = bool_decide (attribute ∈ rewriteTargets).
Proof. unfold isRewriteTarget. by rewrite isRewriteTarget_fold. Qed.

Section Render.

Context {Template : Type}.
Variable Parse : string -> Result Template.
Variable Execute : Template -> string -> string * option string.

(** C6. Whatever the template engine does, a field that is not among the
    rewrite targets comes back as the configured string, unchanged: the
    result does not depend on [Parse] or [Execute]. *)
Theorem templateWithValue_passthrough
    (attribute templateString value : string) (rewriteTargets : list string) :
  attribute ∉ rewriteTargets →
  templateWithValue Parse Execute attribute templateString value rewriteTargets
  = Returned templateString.
Proof.
  intros Hout. unfold templateWithValue.
  rewrite isRewriteTarget_elem, bool_decide_eq_false_2 by done.
  reflexivity.
Qed.

(** A targeted field whose template parses is rendered; an error of
    [Execute] is dropped and what was written so far is returned. *)
Lemma templateWithValue_rendered
    (attribute templateString value : string) (rewriteTargets : list string) (t : Template) :
  attribute ∈ rewriteTargets →
  Parse templateString = Ok t →
  templateWithValue Parse Execute attribute templateString value rewriteTargets
  = Returned (fst (Execute t value)).
Proof.
  intros Hin Hparse. unfold templateWithValue.
  rewrite isRewriteTarget_elem, bool_decide_eq_true_2 by done.
  simpl. by rewrite Hparse.
Qed.

(** A targeted field whose template does not parse makes the call panic. *)
Lemma templateWithValue_unparsed
    (attribute templateString value : string) (rewriteTargets : list string) (e : string) :
  attribute ∈ rewriteTargets →
  Parse templateString = Err e →
  templateWithValue Parse Execute attribute templateString value rewriteTargets
  = Panicked nilDereference.
Proof.
  intros Hin Hparse. unfold templateWithValue.
  rewrite isRewriteTarget_elem, bool_decide_eq_true_2 by done.
  simpl. by rewrite Hparse.
Qed.

(** The call returns exactly when the field is not a target or its
    template parses. *)
Lemma templateWithValue_returns
    (attribute templateString value : string) (rewriteTargets : list string) :
  (∃ out, templateWithValue Parse Execute attribute templateString value rewriteTargets
          = Returned out)
  ↔ attribute ∉ rewriteTargets ∨ ∃ t, Parse templateString = Ok t.
Proof.
  split.
  - intros [out Hout]. destruct (decide (attribute ∈ rewriteTargets)) as [Hin | Hnin].
    + right. destruct (Parse templateString) as [t | e] eqn:Hparse; [by exists t |].
      rewrite (templateWithValue_unparsed _ _ _ _ e) in Hout by done. discriminate.
    + by left.
  - assert (Hskip : attribute ∉ rewriteTargets →
              templateWithValue Parse Execute attribute templateString value rewriteTargets
              = Returned templateString).
    { intros Hnin. unfold templateWithValue.
      by rewrite isRewriteTarget_elem, bool_decide_eq_false_2. }
    intros [Hnin | [t Hparse]].
    + exists templateString. by apply Hskip.
    + destruct (decide (attribute ∈ rewriteTargets)) as [Hin | Hnin].
      * exists (fst (Execute t value)). by apply templateWithValue_rendered.
      * exists templateString. by apply Hskip.
Qed.

End Render.

Lemma templateWithValue_passthrough_witness :
  (Namespace ∉ [Name])
  ∧ templateWithValue ValueTemplate.Parse ValueTemplate.Execute
      Namespace "{{.Value" "teamA" [Name]
    = Returned "{{.Value".
Proof.
  assert (H : Namespace ∉ [Name]).
  { rewrite not_elem_of_cons. split; [discriminate | apply not_elem_of_nil]. }
  split; [exact H |].
  exact (templateWithValue_passthrough ValueTemplate.Parse ValueTemplate.Execute
           Namespace "{{.Value" "teamA" [Name] H).
Defined.

(** C9. A targeted field with the template [{{.Value], whose action is
    never closed: [Parse] fails, its error is dropped, and the call on the
    nil template panics instead of returning a string. *)
Theorem templateWithValue_unclosed_action_panics :
  templateWithValue ValueTemplate.Parse ValueTemplate.Execute
    Namespace "{{.Value" "teamA" [Namespace]
  = Panicked nilDereference.
Proof. reflexivity. Qed.

(** An error of [Execute] alone is dropped: the text before the failing
    action is returned. *)
Example templateWithValue_execute_error :
  templateWithValue ValueTemplate.Parse ValueTemplate.Execute
    Namespace "team-{{.Missing}}-x" "teamA" [Namespace]
  = Returned "team-".
Proof. reflexivity. Qed.

Example templateWithValue_fill_in :
  templateWithValue ValueTemplate.Parse ValueTemplate.Execute
    Namespace "team-{{.Value}}" "a" [Namespace; Name]
  = Returned "team-a".
Proof. reflexivity. Qed.

(** ** Validation of the rewrite configuration *)

Lemma buildSet_fold (l : list string) (m : gset string) (k : string) :
  k ∈ fold_left (fun m v => {[ v ]} ∪ m) l m ↔ k ∈ m ∨ k ∈ l.
Proof.
  revert m. induction l as [| v rest IH]; intros m; cbn [fold_left].
  - split; [by left | intros [H | H]; [done | by apply not_elem_of_nil in H]].
  - rewrite IH, elem_of_union, elem_of_singleton, elem_of_cons. tauto.
Qed.

(** The set built from a target list has exactly the list's names. *)
Lemma elem_of_buildSet (l : list string) (k : string) : k ∈ buildSet l ↔ k ∈ l.
Proof.
  unfold buildSet. rewrite buildSet_fold. split; [intros [H | H] | by right]; [| done].
  by apply not_elem_of_empty in H.
Qed.

Lemma sharesKey_true (qs hs : gset string) :
  Authz.sharesKey (Some qs) (Some hs) = true ↔ ∃ k, k ∈ qs ∧ k ∈ hs.
Proof.
  unfold Authz.sharesKey. rewrite existsb_exists. simpl. split.
  - intros [k [Hin Hk]]. exists k. apply list_elem_of_In, elem_of_elements in Hin.
    apply bool_decide_eq_true_1 in Hk. done.
  - intros [k [Hq Hh]]. exists k. split.
    + by apply list_elem_of_In, elem_of_elements.
    + by apply bool_decide_eq_true_2.
Qed.

Lemma sharesKey_buildSet (ql hl : list string) :
  Authz.sharesKey (Some (buildSet ql)) (Some (buildSet hl)) = true
  ↔ ∃ k, k ∈ ql ∧ k ∈ hl.
Proof.
  rewrite sharesKey_true. split; intros [k [Hq Hh]]; exists k.
  - by rewrite <- !elem_of_buildSet.
  - by rewrite !elem_of_buildSet.
Qed.

Lemma length_zero_nil {A} (l : list A) : Nat.eqb (List.length l) 0 = true ↔ l = [].
Proof. destruct l; simpl; split; intros H; try done. Qed.

(** C2. With both rules present, validation fails when a target list is
    nil or empty, fails when some name is in both lists, and succeeds,
    with both lookup sets built, when both lists are non-empty and share no
    name. Both failures are the error return of [InitConfig]; they carry
    different texts. *)
Theorem InitConfig_both_rules (cfg : Config) (rw : SubjectAccessReviewRewrites)
    (q : QueryParameterRewriteConfig) (h : HTTPHeaderRewriteConfig) :
  Rewrites cfg = Some rw →
  ByQueryParameter rw = Some q →
  ByHTTPHeader rw = Some h →
  (sliceElems (qp_RewriteTargets q) = [] ∨ sliceElems (hh_RewriteTargets h) = [] →
   Authz.InitConfig cfg = Err Authz.errMissingTargets)
  ∧ (∀ k, k ∈ sliceElems (qp_RewriteTargets q) → k ∈ sliceElems (hh_RewriteTargets h) →
     Authz.InitConfig cfg = Err Authz.errNotExclusive)
  ∧ (∀ ql hl, qp_RewriteTargets q = Some ql → hh_RewriteTargets h = Some hl →
     ql ≠ [] → hl ≠ [] → (∀ k, k ∈ ql → k ∉ hl) →
     Authz.InitConfig cfg = Ok (bothMaterialized cfg q h ql hl)).
Proof.
  intros Hrw Hq Hh.
  destruct rw as [oq oh]. simpl in Hq, Hh. subst oq oh.
  destruct q as [qn qt qs], h as [hn ht hs]. simpl.
  unfold Authz.InitConfig. rewrite Hrw. simpl.
  unfold Authz.checkExclusive, Authz.materializeQuery, Authz.materializeHeader. simpl.
  split; [| split].
  - intros Hmissing. destruct qt as [ql |], ht as [hl |]; simpl in *; try done.
    destruct Hmissing as [-> | ->]; simpl; [done |].
    by rewrite orb_true_r.
  - intros k Hkq Hkh. destruct qt as [ql |], ht as [hl |]; simpl in *;
      try by apply not_elem_of_nil in Hkq.
    + destruct ql as [| q1 ql]; [by apply not_elem_of_nil in Hkq |].
      destruct hl as [| h1 hl]; [by apply not_elem_of_nil in Hkh |].
      simpl.
      assert (Hshare : Authz.sharesKey (Some (buildSet (q1 :: ql))) (Some (buildSet (h1 :: hl)))
                       = true) by (apply sharesKey_buildSet; eauto).
      by rewrite Hshare.
    + by apply not_elem_of_nil in Hkh.
  - intros ql hl [= ->] [= ->] Hqne Hhne Hdisjoint. simpl.
    destruct ql as [| q1 ql]; [done |]. destruct hl as [| h1 hl]; [done |]. simpl.
    assert (Hshare : Authz.sharesKey (Some (buildSet (q1 :: ql))) (Some (buildSet (h1 :: hl)))
                     = false).
    { apply not_true_is_false. rewrite sharesKey_buildSet.
      intros [k [Hkq Hkh]]. by apply (Hdisjoint k). }
    by rewrite Hshare.
Qed.

Lemma InitConfig_both_rules_witness :
  Authz.InitConfig disjointConfig
  = Ok (bothMaterialized disjointConfig (queryRule (Some [Namespace]))
          (headerRule (Some [Name])) [Namespace] [Name])
  ∧ Authz.InitConfig overlappingConfig = Err Authz.errNotExclusive
  ∧ Authz.InitConfig missingTargetsConfig = Err Authz.errMissingTargets.
Proof.
  split; [| split].
  - refine (proj2 (proj2 (InitConfig_both_rules disjointConfig _ _ _ eq_refl eq_refl eq_refl))
              [Namespace] [Name] eq_refl eq_refl _ _ _).
    + discriminate.
    + discriminate.
    + intros k Hk. apply list_elem_of_singleton in Hk. subst k.
      rewrite list_elem_of_singleton. discriminate.
  - refine (proj1 (proj2 (InitConfig_both_rules overlappingConfig _ _ _ eq_refl eq_refl eq_refl))
              Namespace _ _).
    + apply list_elem_of_here.
    + apply list_elem_of_here.
  - refine (proj1 (InitConfig_both_rules missingTargetsConfig _ _ _ eq_refl eq_refl eq_refl) _).
    right. reflexivity.
Defined.

(** With a lone rule whose targets are nil, the validating [InitConfig]
    returns the configuration with all six names as that rule's targets,
    and with the lookup set built from them. *)
Lemma InitConfig_lone_rule_defaulted (cfg : Config) (rw : SubjectAccessReviewRewrites) :
  Rewrites cfg = Some rw →
  (∀ q, ByQueryParameter rw = Some q → ByHTTPHeader rw = None → qp_RewriteTargets q = None →
     Authz.InitConfig cfg = Ok (queryDefaulted cfg q))
  ∧ (∀ h, ByQueryParameter rw = None → ByHTTPHeader rw = Some h → hh_RewriteTargets h = None →
     Authz.InitConfig cfg = Ok (headerDefaulted cfg h)).
Proof.
  intros Hrw. destruct rw as [oq oh]. simpl. unfold Authz.InitConfig. rewrite Hrw. simpl.
  split.
  - intros [qn qt qs] -> ->. simpl. intros ->. reflexivity.
  - intros [hn ht hs] -> ->. simpl. intros ->. reflexivity.
Qed.

(** The [InitConfig] of auth.go:88-110 panics whenever exactly one rule is
    present, whatever that rule's targets are: the rule that is nil is
    assigned through at line 100 or at line 104. *)
Lemma InitConfig_unguarded_lone_rule (cfg : Config) (rw : SubjectAccessReviewRewrites) :
  Rewrites cfg = Some rw →
  (ByQueryParameter rw = None ∧ ByHTTPHeader rw ≠ None)
  ∨ (ByQueryParameter rw ≠ None ∧ ByHTTPHeader rw = None) →
  AuthzDefaults.InitConfig cfg = Panicked nilDereference.
Proof.
  intros Hrw Hone. unfold AuthzDefaults.InitConfig. rewrite Hrw.
  destruct rw as [[[qn [ql |] qs] |] [[hn [hl |] hs] |]]; simpl in *;
    destruct Hone as [[Hq Hh] | [Hq Hh]]; congruence.
Qed.

(** C4. A lone query-parameter rule, targets unset, given to the
    [InitConfig] of auth.go:88-110: the targets are defaulted at line 95,
    the query rule's set is built, and line 104 assigns through the nil
    header rule. The call panics. *)
Theorem InitConfig_unguarded_lone_query_panics :
  AuthzDefaults.InitConfig loneQueryConfig = Panicked nilDereference.
Proof. reflexivity. Qed.

Example InitConfig_unguarded_lone_header_panics :
  AuthzDefaults.InitConfig loneHeaderConfig = Panicked nilDereference.
Proof. reflexivity. Qed.

Example InitConfig_lone_query_defaulted :
  Authz.InitConfig loneQueryConfig = Ok (queryDefaulted loneQueryConfig (queryRule None)).
Proof. reflexivity. Qed.

(** ** Validating twice *)

Lemma checkExclusive_targets (rw : SubjectAccessReviewRewrites)
    (q : QueryParameterRewriteConfig) (h : HTTPHeaderRewriteConfig) :
  ByQueryParameter rw = Some q → ByHTTPHeader rw = Some h →
  Authz.checkExclusive rw = None →
  ∃ ql hl, qp_RewriteTargets q = Some ql ∧ hh_RewriteTargets h = Some hl.
Proof.
  unfold Authz.checkExclusive. intros -> ->.
  destruct (qp_RewriteTargets q) as [ql |], (hh_RewriteTargets h) as [hl |]; try discriminate.
  intros _. by exists ql, hl.
Qed.

(** C8. When [InitConfig] accepts a configuration, it accepts the
    configuration it returned and returns it as it is. *)
Theorem InitConfig_idempotent (cfg cfg' : Config) :
  Authz.InitConfig cfg = Ok cfg' → Authz.InitConfig cfg' = Ok cfg'.
Proof.
  unfold Authz.InitConfig.
  destruct (Rewrites cfg) as [rw0 |] eqn:Hrw; [| intros [= <-]; by rewrite Hrw].
  destruct rw0 as [oq oh].
  destruct oq as [[qn qt qs] |], oh as [[hn ht hs] |]; simpl.
  - (* both rules *)
    unfold Authz.checkExclusive, Authz.materializeQuery, Authz.materializeHeader. simpl.
    destruct qt as [ql |], ht as [hl |]; simpl; try discriminate.
    destruct (Nat.eqb (List.length ql) 0 || Nat.eqb (List.length hl) 0) eqn:Hlen;
      [discriminate |].
    destruct (Authz.sharesKey (Some (buildSet ql)) (Some (buildSet hl))) eqn:Hshare;
      [discriminate |].
    intros [= <-]. simpl. by rewrite Hlen, Hshare.
  - (* the query-parameter rule alone *)
    destruct qt as [ql |]; simpl; intros [= <-]; reflexivity.
  - (* the header rule alone *)
    destruct ht as [hl |]; simpl; intros [= <-]; reflexivity.
  - intros [= <-]. by rewrite Hrw.
Qed.

Lemma InitConfig_idempotent_witness :
  Authz.InitConfig loneQueryConfig = Ok (queryDefaulted loneQueryConfig (queryRule None))
  ∧ Authz.InitConfig (queryDefaulted loneQueryConfig (queryRule None))
    = Ok (queryDefaulted loneQueryConfig (queryRule None)).
Proof.
  split; [reflexivity |].
  exact (InitConfig_idempotent loneQueryConfig _ eq_refl).
Defined.

(** ** Resolving the attributes of a request *)

Section Resolve.

Context {Template : Type}.
Variable Parse : string -> Result Template.
Variable Execute : Template -> string -> string * option string.
Variable CanonicalMIMEHeaderKey : string -> string.

(** C3. Without a template there is one non-resource record carrying the
    request path; with a template and no rewrites there is one resource
    record, the template field for field; with a template, rewrites and
    no captured parameter there is none. *)
Theorem GetRequestAttributes_cardinality (cfg : Config) (u : UserInfo) (r : Request) :
  (cfg_ResourceAttributes cfg = None →
   GetRequestAttributes Parse Execute CanonicalMIMEHeaderKey cfg u r
   = Returned [mkAttributesRecord u (apiVerb (Method r)) "" "" "" "" "" "" false (URL_Path r)])
  ∧ (∀ ra, cfg_ResourceAttributes cfg = Some ra → Rewrites cfg = None →
     GetRequestAttributes Parse Execute CanonicalMIMEHeaderKey cfg u r
     = Returned [mkAttributesRecord u (apiVerb (Method r))
                   (ra_Namespace ra) (ra_APIGroup ra) (ra_APIVersion ra)
                   (ra_Resource ra) (ra_Subresource ra) (ra_Name ra) true ""])
  ∧ (∀ ra rw, cfg_ResourceAttributes cfg = Some ra → Rewrites cfg = Some rw →
     collectParameters CanonicalMIMEHeaderKey rw r = [] →
     GetRequestAttributes Parse Execute CanonicalMIMEHeaderKey cfg u r = Returned []).
Proof.
  unfold GetRequestAttributes. repeat split.
  - by intros ->.
  - by intros ra -> ->.
  - by intros ra rw -> -> ->.
Qed.

(** No parameter is captured exactly when the query parameter of the
    rule has no value and the header of the rule has none or an empty
    first one. *)
Lemma collectParameters_nil (rw : SubjectAccessReviewRewrites) (r : Request) :
  collectParameters CanonicalMIMEHeaderKey rw r = []
  ↔ queryParameters rw r = [] ∧ headerParameters CanonicalMIMEHeaderKey rw r = [].
Proof.
  unfold collectParameters. split.
  - apply app_eq_nil.
  - by intros [-> ->].
Qed.

Lemma targetsOf_collected (rw : SubjectAccessReviewRewrites) (r : Request)
    (p : rewriteParameter) :
  p ∈ collectParameters CanonicalMIMEHeaderKey rw r → targetsOf rw p = Returned (targetsFor rw p).
Proof.
  unfold collectParameters, queryParameters, headerParameters.
  rewrite elem_of_app. unfold targetsOf, targetsFor. intros [Hq | Hh].
  - destruct (ByQueryParameter rw) as [q |]; [| by apply not_elem_of_nil in Hq].
    destruct (negb (qp_Name q =? "")%string); [| by apply not_elem_of_nil in Hq].
    destruct (URL_Query r !! qp_Name q) as [params |]; [| by apply not_elem_of_nil in Hq].
    apply list_elem_of_fmap in Hq as [v [-> _]]. reflexivity.
  - destruct (ByHTTPHeader rw) as [h |]; [| by apply not_elem_of_nil in Hh].
    destruct (negb (hh_Name h =? "")%string); [| by apply not_elem_of_nil in Hh].
    destruct (negb (Header_Get CanonicalMIMEHeaderKey (Header r) (hh_Name h) =? "")%string);
      [| by apply not_elem_of_nil in Hh].
    apply list_elem_of_singleton in Hh as ->. reflexivity.
Qed.

Lemma templateWithValue_is_rendered
    (attribute templateString v : string) (rewriteTargets : list string) :
  (attribute ∈ rewriteTargets → ∃ t, Parse templateString = Ok t) →
  templateWithValue Parse Execute attribute templateString v rewriteTargets
  = Returned (rendered Parse Execute attribute templateString v rewriteTargets).
Proof.
  intros Hparse. unfold templateWithValue, rendered. rewrite isRewriteTarget_elem.
  destruct (decide (attribute ∈ rewriteTargets)) as [Hin | Hout].
  - rewrite bool_decide_eq_true_2 by done. simpl.
    destruct (Hparse Hin) as [t ->]. reflexivity.
  - by rewrite bool_decide_eq_false_2.
Qed.

Lemma rewrittenAttributes_returns (u : UserInfo) (verb : string) (ra : ResourceAttributes)
    (rw : SubjectAccessReviewRewrites) (p : rewriteParameter) :
  targetsParse Parse ra (targetsFor rw p) →
  rewrittenAttributes Parse Execute u verb ra (value p) (targetsFor rw p)
  = Returned (renderedAttributes Parse Execute u verb ra rw p).
Proof.
  intros Hparse. unfold rewrittenAttributes, renderedAttributes.
  rewrite !templateWithValue_is_rendered; [reflexivity | ..];
    apply Hparse; unfold templateFields; set_solver.
Qed.

Lemma rewriteAll_returns (u : UserInfo) (verb : string) (ra : ResourceAttributes)
    (rw : SubjectAccessReviewRewrites) (parameters : list rewriteParameter)
    (allAttrs : list AttributesRecord) :
  (∀ p, p ∈ parameters →
     attributesFor Parse Execute u verb ra rw p
     = Returned (renderedAttributes Parse Execute u verb ra rw p)) →
  rewriteAll Parse Execute u verb ra rw parameters allAttrs
  = Returned (allAttrs ++ map (renderedAttributes Parse Execute u verb ra rw) parameters).
Proof.
  revert allAttrs. induction parameters as [| p rest IH]; intros allAttrs Hall; simpl.
  - by rewrite app_nil_r.
  - rewrite (Hall p) by apply list_elem_of_here. simpl.
    rewrite IH by (intros p' Hp'; apply Hall; by apply list_elem_of_further).
    by rewrite <- app_assoc.
Qed.

(** The first parameter whose record cannot be built ends the loop. *)
Lemma rewriteAll_panics (u : UserInfo) (verb : string) (ra : ResourceAttributes)
    (rw : SubjectAccessReviewRewrites) (before after : list rewriteParameter)
    (p : rewriteParameter) (allAttrs : list AttributesRecord) (why : string) :
  (∀ p', p' ∈ before →
     attributesFor Parse Execute u verb ra rw p'
     = Returned (renderedAttributes Parse Execute u verb ra rw p')) →
  attributesFor Parse Execute u verb ra rw p = Panicked why →
  rewriteAll Parse Execute u verb ra rw (before ++ p :: after) allAttrs = Panicked why.
Proof.
  revert allAttrs. induction before as [| p0 rest IH]; intros allAttrs Hbefore Hp; simpl.
  - by rewrite Hp.
  - rewrite (Hbefore p0) by apply list_elem_of_here. simpl.
    apply IH; [| done]. intros p' Hp'. apply Hbefore. by apply list_elem_of_further.
Qed.

(** The parameters are the values of the query parameter in the order
    they arrived, then the header's value if there is one. *)
Lemma collectParameters_order (rw : SubjectAccessReviewRewrites) (r : Request) :
  ∃ values headerValue,
    collectParameters CanonicalMIMEHeaderKey rw r
    = map (fun v => mkRewriteParameter v RewriteValueSourceQueryParams) values
      ++ map (fun v => mkRewriteParameter v RewriteValueSourceHTTPHeader) headerValue
    ∧ (List.length headerValue ≤ 1)%nat
    ∧ (∀ q, ByQueryParameter rw = Some q → qp_Name q ≠ "" →
         values = default [] (URL_Query r !! qp_Name q))
    ∧ (∀ h, ByHTTPHeader rw = Some h → hh_Name h ≠ "" →
         Header_Get CanonicalMIMEHeaderKey (Header r) (hh_Name h) ≠ "" →
         headerValue = [Header_Get CanonicalMIMEHeaderKey (Header r) (hh_Name h)]).
Proof.
  unfold collectParameters, queryParameters, headerParameters.
  exists (match ByQueryParameter rw with
          | Some q => if negb (qp_Name q =? "")%string
                      then default [] (URL_Query r !! qp_Name q) else []
          | None => []
          end),
         (match ByHTTPHeader rw with
          | Some h => if negb (hh_Name h =? "")%string
                      then if negb (Header_Get CanonicalMIMEHeaderKey (Header r) (hh_Name h) =? "")%string
                           then [Header_Get CanonicalMIMEHeaderKey (Header r) (hh_Name h)] else []
                      else []
          | None => []
          end).
  repeat split.
  - f_equal.
    + destruct (ByQueryParameter rw) as [q |]; [| done].
      destruct (negb (qp_Name q =? "")%string); [| done].
      by destruct (URL_Query r !! qp_Name q).
    + destruct (ByHTTPHeader rw) as [h |]; [| done].
      destruct (negb (hh_Name h =? "")%string); [| done].
      by destruct (negb (Header_Get CanonicalMIMEHeaderKey (Header r) (hh_Name h) =? "")%string).
  - destruct (ByHTTPHeader rw) as [h |]; [| simpl; lia].
    destruct (negb (hh_Name h =? "")%string); [| simpl; lia].
    destruct (negb (Header_Get CanonicalMIMEHeaderKey (Header r) (hh_Name h) =? "")%string); simpl; lia.
  - intros q -> Hname. by apply String.eqb_neq in Hname as ->.
  - intros h -> Hname Hvalue.
    apply String.eqb_neq in Hname as ->. by apply String.eqb_neq in Hvalue as ->.
Qed.

(** With a template, rewrites and at least one captured parameter, and
    with every targeted template parsing, there is one record per
    parameter, in the order of the parameters, each rendered with the
    targets of the rule its parameter came from. *)
Lemma GetRequestAttributes_rewritten (cfg : Config) (ra : ResourceAttributes)
    (rw : SubjectAccessReviewRewrites) (u : UserInfo) (r : Request) :
  cfg_ResourceAttributes cfg = Some ra →
  Rewrites cfg = Some rw →
  collectParameters CanonicalMIMEHeaderKey rw r ≠ [] →
  (∀ p, p ∈ collectParameters CanonicalMIMEHeaderKey rw r → targetsParse Parse ra (targetsFor rw p)) →
  GetRequestAttributes Parse Execute CanonicalMIMEHeaderKey cfg u r
  = Returned (map (renderedAttributes Parse Execute u (apiVerb (Method r)) ra rw)
                  (collectParameters CanonicalMIMEHeaderKey rw r)).
Proof.
  intros Hra Hrw Hsome Hparse. unfold GetRequestAttributes.
  rewrite Hra, Hrw.
  destruct (collectParameters CanonicalMIMEHeaderKey rw r) as [| p0 rest] eqn:Hparams; [done |].
  cbn [List.length Nat.eqb].
  rewrite rewriteAll_returns; [done |].
  intros p Hp. unfold attributesFor.
  rewrite (targetsOf_collected rw r p) by (by rewrite Hparams). simpl.
  apply rewrittenAttributes_returns. by apply Hparse.
Qed.

(** If the record of a parameter is built, each of its six fields was
    rendered. *)
Lemma rewrittenAttributes_rendered_each (u : UserInfo) (verb : string) (ra : ResourceAttributes)
    (v : string) (rewriteTargets : list string) (attrs : AttributesRecord) :
  rewrittenAttributes Parse Execute u verb ra v rewriteTargets = Returned attrs →
  ∀ attribute templateString,
    (attribute, templateString) ∈ templateFields ra →
    ∃ out, templateWithValue Parse Execute attribute templateString v rewriteTargets
           = Returned out.
Proof.
  unfold rewrittenAttributes, templateFields. intros Hbuilt attribute templateString Hfield.
  destruct (templateWithValue Parse Execute Namespace (ra_Namespace ra) v rewriteTargets)
    as [o1 |] eqn:H1; [| discriminate].
  destruct (templateWithValue Parse Execute ApiGroup (ra_APIGroup ra) v rewriteTargets)
    as [o2 |] eqn:H2; [| discriminate].
  destruct (templateWithValue Parse Execute APIVersion (ra_APIVersion ra) v rewriteTargets)
    as [o3 |] eqn:H3; [| discriminate].
  destruct (templateWithValue Parse Execute Resource (ra_Resource ra) v rewriteTargets)
    as [o4 |] eqn:H4; [| discriminate].
  destruct (templateWithValue Parse Execute Subresource (ra_Subresource ra) v rewriteTargets)
    as [o5 |] eqn:H5; [| discriminate].
  destruct (templateWithValue Parse Execute Name (ra_Name ra) v rewriteTargets)
    as [o6 |] eqn:H6; [| discriminate].
  rewrite !elem_of_cons in Hfield.
  destruct Hfield as [[= -> ->] | [[= -> ->] | [[= -> ->] | [[= -> ->] | [[= -> ->] | [[= -> ->] | Hnil]]]]]];
    eauto.
  by apply not_elem_of_nil in Hnil.
Qed.

Lemma rewriteAll_returned_each (u : UserInfo) (verb : string) (ra : ResourceAttributes)
    (rw : SubjectAccessReviewRewrites) (parameters : list rewriteParameter)
    (allAttrs result : list AttributesRecord) :
  rewriteAll Parse Execute u verb ra rw parameters allAttrs = Returned result →
  ∀ p, p ∈ parameters → ∃ attrs, attributesFor Parse Execute u verb ra rw p = Returned attrs.
Proof.
  revert allAttrs. induction parameters as [| p0 rest IH]; intros allAttrs Hall p Hp.
  - by apply not_elem_of_nil in Hp.
  - simpl in Hall.
    destruct (attributesFor Parse Execute u verb ra rw p0) as [a0 |] eqn:H0; [| discriminate].
    simpl in Hall. apply elem_of_cons in Hp as [-> | Hp]; [by exists a0 |].
    by apply (IH _ Hall).
Qed.

(** With a template, rewrites and at least one captured parameter, the
    call returns exactly when every template a parameter's targets name
    parses; otherwise it panics. *)
Lemma GetRequestAttributes_returns (cfg : Config) (ra : ResourceAttributes)
    (rw : SubjectAccessReviewRewrites) (u : UserInfo) (r : Request) :
  cfg_ResourceAttributes cfg = Some ra →
  Rewrites cfg = Some rw →
  collectParameters CanonicalMIMEHeaderKey rw r ≠ [] →
  (∃ result, GetRequestAttributes Parse Execute CanonicalMIMEHeaderKey cfg u r = Returned result)
  ↔ ∀ p, p ∈ collectParameters CanonicalMIMEHeaderKey rw r →
         targetsParse Parse ra (targetsFor rw p).
Proof.
  intros Hra Hrw Hsome. split.
  - intros [result Hresult] p Hp attribute templateString Hfield Htarget.
    unfold GetRequestAttributes in Hresult. rewrite Hra, Hrw in Hresult.
    destruct (collectParameters CanonicalMIMEHeaderKey rw r) as [| p0 rest] eqn:Hparams;
      [done |].
    cbn [List.length Nat.eqb] in Hresult.
    destruct (rewriteAll_returned_each _ _ _ _ _ _ _ Hresult p Hp) as [attrs Hattrs].
    unfold attributesFor in Hattrs.
    rewrite (targetsOf_collected rw r p) in Hattrs by (by rewrite Hparams). simpl in Hattrs.
    destruct (rewrittenAttributes_rendered_each _ _ _ _ _ _ Hattrs _ _ Hfield) as [out Hout].
    assert (Hret : ∃ out, templateWithValue Parse Execute attribute templateString (value p)
                            (targetsFor rw p) = Returned out) by eauto.
    apply templateWithValue_returns in Hret as [Hnot | Hparse]; done.
  - intros Hparse. eexists. by apply GetRequestAttributes_rewritten.
Qed.

(** Every record carries the caller and the verb of the request method. *)
Lemma GetRequestAttributes_verb (cfg : Config) (u : UserInfo) (r : Request)
    (result : list AttributesRecord) :
  GetRequestAttributes Parse Execute CanonicalMIMEHeaderKey cfg u r = Returned result →
  Forall (fun attrs => User attrs = u ∧ Verb attrs = apiVerb (Method r)) result.
Proof.
  unfold GetRequestAttributes.
  destruct (cfg_ResourceAttributes cfg) as [ra |];
    [| intros [= <-]; by repeat constructor].
  destruct (Rewrites cfg) as [rw |]; [| intros [= <-]; by repeat constructor].
  destruct (Nat.eqb _ 0); [intros [= <-]; constructor |].
  assert (Hloop : ∀ parameters allAttrs,
            Forall (fun attrs => User attrs = u ∧ Verb attrs = apiVerb (Method r)) allAttrs →
            rewriteAll Parse Execute u (apiVerb (Method r)) ra rw parameters allAttrs
            = Returned result →
            Forall (fun attrs => User attrs = u ∧ Verb attrs = apiVerb (Method r)) result).
  { induction parameters as [| p rest IH]; intros allAttrs Hacc; simpl.
    - by intros [= <-].
    - unfold attributesFor, rewrittenAttributes.
      destruct (targetsOf rw p) as [targets |]; [| discriminate]. simpl.
      repeat match goal with
             | |- context [templateWithValue Parse Execute ?a ?t ?v ?ts] =>
                 destruct (templateWithValue Parse Execute a t v ts); simpl; [| discriminate]
             end.
      apply IH. apply Forall_app. split; [done |]. by repeat constructor. }
  apply Hloop. constructor.
Qed.

End Resolve.

Lemma GetRequestAttributes_cardinality_witness :
  resolve emptyConfig alice bothRequest
  = Returned [mkAttributesRecord alice "get" "" "" "" "" "" "" false "/metrics"]
  ∧ resolve staticConfig alice bothRequest
    = Returned [mkAttributesRecord alice "get" "{{.Value}}" "" "" "pods" "" "" true ""]
  ∧ resolve headerConfig alice plainRequest = Returned [].
Proof.
  split; [| split].
  - exact (proj1 (GetRequestAttributes_cardinality ValueTemplate.Parse ValueTemplate.Execute
                    Textproto.CanonicalMIMEHeaderKey emptyConfig alice bothRequest) eq_refl).
  - exact (proj1 (proj2 (GetRequestAttributes_cardinality ValueTemplate.Parse
                           ValueTemplate.Execute Textproto.CanonicalMIMEHeaderKey
                           staticConfig alice bothRequest))
             podsTemplate eq_refl eq_refl).
  - exact (proj2 (proj2 (GetRequestAttributes_cardinality ValueTemplate.Parse
                           ValueTemplate.Execute Textproto.CanonicalMIMEHeaderKey
                           headerConfig alice plainRequest))
             podsTemplate _ eq_refl eq_refl eq_refl).
Defined.

(** A rewrites block with neither rule captures nothing, so no record is
    returned although the template is set. *)
Example resolve_empty_rewrites :
  resolve (configOf None None (Some podsTemplate)) alice bothRequest = Returned [].
Proof. reflexivity. Qed.

(** C5. The header rule targets the namespace, whose template [{{.Value]
    is never closed, and the request carries the header: one parameter is
    captured, rendering the namespace for it panics, and no record is
    returned. *)
Theorem GetRequestAttributes_unclosed_template_panics :
  collectParameters Textproto.CanonicalMIMEHeaderKey
    (mkSubjectAccessReviewRewrites None (Some (headerRule (Some [Namespace])))) headerRequest
  = [mkRewriteParameter "teamA" RewriteValueSourceHTTPHeader]
  ∧ resolve unclosedConfig alice headerRequest = Panicked nilDereference.
Proof. split; reflexivity. Qed.

(** Header [X-Proj: teamA], target [{namespace}]: one record, resource
    pods, namespace teamA. *)
Example resolve_by_header :
  resolve headerConfig alice headerRequest
  = Returned [mkAttributesRecord alice "get" "teamA" "" "" "pods" "" "" true ""].
Proof. reflexivity. Qed.

(** [ns=a&ns=b], target [{namespace}]: two records, namespaces a then b. *)
Example resolve_by_query :
  resolve queryConfig alice queryRequest
  = Returned [mkAttributesRecord alice "get" "a" "" "" "pods" "" "" true "";
              mkAttributesRecord alice "get" "b" "" "" "pods" "" "" true ""].
Proof. reflexivity. Qed.

(** Both rules with targets [{namespace}] and [{name}]: the query values
    come first and fill the namespace, the header value comes last and
    would fill the name, whose template is the literal empty string. *)
Example resolve_by_both :
  resolve disjointConfig alice bothRequest
  = Returned [mkAttributesRecord alice "get" "a" "" "" "pods" "" "" true "";
              mkAttributesRecord alice "get" "b" "" "" "pods" "" "" true "";
              mkAttributesRecord alice "get" "{{.Value}}" "" "" "pods" "" "" true ""].
Proof. reflexivity. Qed.

(** ** The header's contribution *)

Lemma Header_Get_first (CanonicalMIMEHeaderKey : string -> string)
    (headers : gmap string (list string)) (key v : string) (rest : list string) :
  headers !! CanonicalMIMEHeaderKey key = Some (v :: rest) →
  Header_Get CanonicalMIMEHeaderKey headers key = v.
Proof. unfold Header_Get. by intros ->. Qed.

Lemma Header_Get_absent (CanonicalMIMEHeaderKey : string -> string)
    (headers : gmap string (list string)) (key : string) :
  headers !! CanonicalMIMEHeaderKey key = None →
  Header_Get CanonicalMIMEHeaderKey headers key = "".
Proof. unfold Header_Get. by intros ->. Qed.

(** The records depend on the headers only through the parameter the
    header rule captures. *)
Lemma GetRequestAttributes_headers {Template : Type}
    (Parse : string -> Result Template) (Execute : Template -> string -> string * option string)
    (CanonicalMIMEHeaderKey : string -> string)
    (cfg : Config) (u : UserInfo) (r r' : Request) :
  Method r = Method r' → URL_Path r = URL_Path r' → URL_Query r = URL_Query r' →
  (∀ rw, Rewrites cfg = Some rw →
     headerParameters CanonicalMIMEHeaderKey rw r
     = headerParameters CanonicalMIMEHeaderKey rw r') →
  GetRequestAttributes Parse Execute CanonicalMIMEHeaderKey cfg u r
  = GetRequestAttributes Parse Execute CanonicalMIMEHeaderKey cfg u r'.
Proof.
  intros Hm Hp Hq Hh. unfold GetRequestAttributes. rewrite Hm, Hp.
  destruct (cfg_ResourceAttributes cfg) as [ra |]; [| done].
  destruct (Rewrites cfg) as [rw |]; [| done].
  unfold collectParameters. rewrite (Hh rw eq_refl).
  unfold queryParameters. by rewrite Hq.
Qed.

(** C10. The header rule captures at most one parameter. A header whose
    first value is empty captures none, and the records are those of the
    request without the header. A header with several values captures
    what its first value alone captures, and the records are those of the
    request with that one value. *)
Theorem headerParameters_first_value {Template : Type}
    (Parse : string -> Result Template) (Execute : Template -> string -> string * option string)
    (CanonicalMIMEHeaderKey : string -> string)
    (cfg : Config) (rw : SubjectAccessReviewRewrites) (h : HTTPHeaderRewriteConfig)
    (u : UserInfo) (r : Request) :
  Rewrites cfg = Some rw →
  ByHTTPHeader rw = Some h →
  (List.length (headerParameters CanonicalMIMEHeaderKey rw r) ≤ 1)%nat
  ∧ (∀ rest, Header r !! CanonicalMIMEHeaderKey (hh_Name h) = Some ("" :: rest) →
       headerParameters CanonicalMIMEHeaderKey rw r = []
       ∧ GetRequestAttributes Parse Execute CanonicalMIMEHeaderKey cfg u r
         = GetRequestAttributes Parse Execute CanonicalMIMEHeaderKey cfg u
             (withoutHeader (CanonicalMIMEHeaderKey (hh_Name h)) r))
  ∧ (∀ v rest, Header r !! CanonicalMIMEHeaderKey (hh_Name h) = Some (v :: rest) →
       headerParameters CanonicalMIMEHeaderKey rw r
       = (if negb (String.eqb (hh_Name h) "") && negb (String.eqb v "")
          then [mkRewriteParameter v RewriteValueSourceHTTPHeader] else [])
       ∧ GetRequestAttributes Parse Execute CanonicalMIMEHeaderKey cfg u r
         = GetRequestAttributes Parse Execute CanonicalMIMEHeaderKey cfg u
             (withHeader (CanonicalMIMEHeaderKey (hh_Name h)) [v] r)).
Proof.
  intros Hrw Hh. split; [| split].
  - unfold headerParameters. rewrite Hh.
    destruct (negb (hh_Name h =? "")%string); [| simpl; lia].
    destruct (negb (Header_Get CanonicalMIMEHeaderKey (Header r) (hh_Name h) =? "")%string);
      simpl; lia.
  - intros rest Hpresent.
    assert (Hnone : ∀ rw', Rewrites cfg = Some rw' →
              headerParameters CanonicalMIMEHeaderKey rw' r = []
              ∧ headerParameters CanonicalMIMEHeaderKey rw'
                  (withoutHeader (CanonicalMIMEHeaderKey (hh_Name h)) r) = []).
    { intros rw' Hrw'. assert (rw' = rw) as -> by congruence.
      unfold headerParameters. rewrite Hh. simpl.
      rewrite (Header_Get_first _ _ _ "" rest) by done.
      rewrite Header_Get_absent by apply lookup_delete_eq.
      by destruct (negb (hh_Name h =? "")%string). }
    split; [by apply Hnone |].
    apply GetRequestAttributes_headers; try done.
    intros rw' Hrw'. destruct (Hnone rw' Hrw') as [-> ->]. done.
  - intros v rest Hpresent.
    assert (Hfirst : ∀ rw', Rewrites cfg = Some rw' →
              headerParameters CanonicalMIMEHeaderKey rw' r
              = (if negb (String.eqb (hh_Name h) "") && negb (String.eqb v "")
                 then [mkRewriteParameter v RewriteValueSourceHTTPHeader] else [])
              ∧ headerParameters CanonicalMIMEHeaderKey rw'
                  (withHeader (CanonicalMIMEHeaderKey (hh_Name h)) [v] r)
                = (if negb (String.eqb (hh_Name h) "") && negb (String.eqb v "")
                   then [mkRewriteParameter v RewriteValueSourceHTTPHeader] else [])).
    { intros rw' Hrw'. assert (rw' = rw) as -> by congruence.
      unfold headerParameters. rewrite Hh. simpl.
      rewrite (Header_Get_first _ _ _ v rest) by done.
      rewrite (Header_Get_first _ _ _ v []) by apply lookup_insert_eq.
      by destruct (negb (hh_Name h =? "")%string), (negb (v =? "")%string). }
    split; [by apply Hfirst |].
    apply GetRequestAttributes_headers; try done.
    intros rw' Hrw'. destruct (Hfirst rw' Hrw') as [-> ->]. done.
Qed.

Lemma headerParameters_first_value_witness :
  resolve headerConfig alice emptyHeaderRequest = Returned []
  ∧ resolve headerConfig alice repeatedHeaderRequest
    = Returned [mkAttributesRecord alice "get" "teamA" "" "" "pods" "" "" true ""].
Proof.
  split.
  - etransitivity.
    + exact (proj2 (proj1 (proj2 (headerParameters_first_value
                ValueTemplate.Parse ValueTemplate.Execute Textproto.CanonicalMIMEHeaderKey
                headerConfig _ _ alice emptyHeaderRequest eq_refl eq_refl))
              ["teamB"] eq_refl)).
    + reflexivity.
  - etransitivity.
    + exact (proj2 (proj2 (proj2 (headerParameters_first_value
                ValueTemplate.Parse ValueTemplate.Execute Textproto.CanonicalMIMEHeaderKey
                headerConfig _ _ alice repeatedHeaderRequest eq_refl eq_refl))
              "teamA" ["teamB"] eq_refl)).
    + reflexivity.
Defined.

(** ** The authorization loop *)

Section Decide.

Context {AuthorizerState : Type}.
Variable Authorize : AuthorizerState -> AttributesRecord -> AuthorizerState * AuthorizeReply.
Variable u : UserInfo.

Lemma allows_dec (reply : AuthorizeReply) :
  allows reply
  ↔ err reply = None ∧ negb (Decision_eqb (authorized reply) DecisionAllow) = false.
Proof.
  unfold allows. split; intros [He Ha]; (split; [done |]).
  - by rewrite Ha.
  - by destruct (authorized reply).
Qed.

(** The loop ends well exactly when every reply allows, and then every
    set was asked about, in order. *)
Lemma authorizeAll_allowed (st : AuthorizerState) (allAttrs : list AttributesRecord) :
  (authorizeAll Authorize u st allAttrs).2 = AllAllowed
  ↔ Forall allows (repliesInOrder Authorize st allAttrs).
Proof.
  revert st. induction allAttrs as [| attrs rest IH]; intros st; simpl.
  - split; [constructor | done].
  - destruct (Authorize st attrs) as [st' reply] eqn:Hcall.
    rewrite Forall_cons, allows_dec.
    destruct (err reply) as [e |]; simpl; [split; [done | by intros [[? _] _]] |].
    destruct (negb (Decision_eqb (authorized reply) DecisionAllow)); simpl;
      [split; [done | by intros [[_ ?] _]] |].
    specialize (IH st'). destruct (authorizeAll Authorize u st' rest) as [[st'' calls] verdict].
    simpl in *. rewrite IH. tauto.
Qed.

Lemma authorizeAll_allowed_calls (st : AuthorizerState) (allAttrs : list AttributesRecord) :
  (authorizeAll Authorize u st allAttrs).2 = AllAllowed →
  (authorizeAll Authorize u st allAttrs).1.2 = allAttrs.
Proof.
  revert st. induction allAttrs as [| attrs rest IH]; intros st; simpl; [done |].
  destruct (Authorize st attrs) as [st' reply].
  destruct (err reply) as [e |]; simpl; [done |].
  destruct (negb (Decision_eqb (authorized reply) DecisionAllow)); simpl; [done |].
  specialize (IH st'). destruct (authorizeAll Authorize u st' rest) as [[st'' calls] verdict].
  simpl in *. intros Hv. by rewrite IH.
Qed.

(** The first reply that does not allow ends the loop: with the status
    of its kind, after exactly the calls up to it. *)
Lemma authorizeAll_first_failure (st : AuthorizerState) (allAttrs : list AttributesRecord)
    (k : nat) (attrs : AttributesRecord) (reply : AuthorizeReply) :
  Forall allows (take k (repliesInOrder Authorize st allAttrs)) →
  repliesInOrder Authorize st allAttrs !! k = Some reply →
  allAttrs !! k = Some attrs →
  ¬ allows reply →
  (authorizeAll Authorize u st allAttrs).1.2 = take (S k) allAttrs
  ∧ (authorizeAll Authorize u st allAttrs).2
    = match err reply with
      | Some _ => Rejected StatusInternalServerError (rejection "Authorization error" u attrs)
      | None => Rejected StatusForbidden (rejection "Forbidden" u attrs)
      end.
Proof.
  revert st k. induction allAttrs as [| a rest IH]; intros st k Hbefore Hreply Hattrs Hnot;
    [done |].
  simpl in *. destruct (Authorize st a) as [st' reply0] eqn:Hcall.
  destruct k as [| k]; simpl in *.
  - injection Hreply as ->. injection Hattrs as ->.
    rewrite allows_dec in Hnot.
    destruct (err reply) as [e |]; simpl; [done |].
    destruct (negb (Decision_eqb (authorized reply) DecisionAllow)); simpl; [done |].
    exfalso. by apply Hnot.
  - apply Forall_cons in Hbefore as [Hallow Hbefore].
    apply allows_dec in Hallow as [-> ->].
    specialize (IH st' k Hbefore Hreply Hattrs Hnot).
    destruct (authorizeAll Authorize u st' rest) as [[st'' calls] verdict]. simpl in *.
    destruct IH as [-> ->]. done.
Qed.

(** C1. The loop succeeds exactly when the authorizer, asked about the
    sets in order, allows each of them, and then it was asked about each.
    When the reply at position [k] is the first that is not an allow, the
    loop stops there, after [k + 1] calls on the first [k + 1] sets: with
    status 500 if the reply carries an error, with status 403 if it
    carries none and the decision is not allow. *)
Theorem authorizeAll_and (st : AuthorizerState) (allAttrs : list AttributesRecord) :
  ((authorizeAll Authorize u st allAttrs).2 = AllAllowed
   ↔ Forall allows (repliesInOrder Authorize st allAttrs))
  ∧ ((authorizeAll Authorize u st allAttrs).2 = AllAllowed →
     (authorizeAll Authorize u st allAttrs).1.2 = allAttrs)
  ∧ (∀ k attrs reply,
       Forall allows (take k (repliesInOrder Authorize st allAttrs)) →
       repliesInOrder Authorize st allAttrs !! k = Some reply →
       allAttrs !! k = Some attrs →
       (err reply ≠ None →
        (authorizeAll Authorize u st allAttrs).2
        = Rejected StatusInternalServerError (rejection "Authorization error" u attrs)
        ∧ (authorizeAll Authorize u st allAttrs).1.2 = take (S k) allAttrs)
       ∧ (err reply = None → authorized reply ≠ DecisionAllow →
          (authorizeAll Authorize u st allAttrs).2
          = Rejected StatusForbidden (rejection "Forbidden" u attrs)
          ∧ (authorizeAll Authorize u st allAttrs).1.2 = take (S k) allAttrs)).
Proof.
  split; [apply authorizeAll_allowed |].
  split; [apply authorizeAll_allowed_calls |].
  intros k attrs reply Hbefore Hreply Hattrs. split.
  - intros Herr.
    destruct (authorizeAll_first_failure st allAttrs k attrs reply) as [Hcalls Hverdict];
      try done.
    { intros [He _]. done. }
    split; [| done]. rewrite Hverdict. by destruct (err reply).
  - intros Herr Hdecision.
    destruct (authorizeAll_first_failure st allAttrs k attrs reply) as [Hcalls Hverdict];
      try done.
    { intros [_ Ha]. done. }
    split; [| done]. by rewrite Hverdict, Herr.
Qed.

(** The loop asks about a prefix of the sets, never out of order. *)
Lemma authorizeAll_calls_prefix (st : AuthorizerState) (allAttrs : list AttributesRecord) :
  (authorizeAll Authorize u st allAttrs).1.2 `prefix_of` allAttrs.
Proof.
  revert st. induction allAttrs as [| a rest IH]; intros st; simpl; [done |].
  destruct (Authorize st a) as [st' reply].
  destruct (err reply) as [e |]; simpl; [by exists rest |].
  destruct (negb (Decision_eqb (authorized reply) DecisionAllow)); simpl; [by exists rest |].
  specialize (IH st'). destruct (authorizeAll Authorize u st' rest) as [[st'' calls] verdict].
  simpl in *. by apply prefix_cons.
Qed.

End Decide.

Lemma authorizeAll_and_witness :
  (authorizeAll countingAuthorize alice 0
     [namespaceRecord "a"; namespaceRecord "b"; namespaceRecord "c"]).2
  = Rejected 403 "Forbidden (user=alice, verb=get, resource=pods, subresource=)"
  ∧ (authorizeAll countingAuthorize alice 0
       [namespaceRecord "a"; namespaceRecord "b"; namespaceRecord "c"]).1.2
    = [namespaceRecord "a"; namespaceRecord "b"]
  ∧ (authorizeAll countingAuthorize alice 0
       [namespaceRecord "a"; namespaceRecord "down"; namespaceRecord "c"]).2
    = Rejected 500 "Authorization error (user=alice, verb=get, resource=pods, subresource=)"
  ∧ (authorizeAll countingAuthorize alice 0
       [namespaceRecord "a"; namespaceRecord "c"]).1.2
    = [namespaceRecord "a"; namespaceRecord "c"].
Proof.
  assert (Hfirst : Forall allows [mkAuthorizeReply DecisionAllow "" None]).
  { repeat constructor. }
  split; [| split; [| split]].
  - refine (proj1 (proj2 (proj2 (proj2 (authorizeAll_and countingAuthorize alice 0
              [namespaceRecord "a"; namespaceRecord "b"; namespaceRecord "c"]))
              1 (namespaceRecord "b") (mkAuthorizeReply DecisionDeny "no rule matches" None)
              Hfirst eq_refl eq_refl) eq_refl _)).
    discriminate.
  - refine (proj2 (proj2 (proj2 (proj2 (authorizeAll_and countingAuthorize alice 0
              [namespaceRecord "a"; namespaceRecord "b"; namespaceRecord "c"]))
              1 (namespaceRecord "b") (mkAuthorizeReply DecisionDeny "no rule matches" None)
              Hfirst eq_refl eq_refl) eq_refl _)).
    discriminate.
  - refine (proj1 (proj1 (proj2 (proj2 (authorizeAll_and countingAuthorize alice 0
              [namespaceRecord "a"; namespaceRecord "down"; namespaceRecord "c"]))
              1 (namespaceRecord "down")
              (mkAuthorizeReply DecisionNoOpinion "" (Some "connection refused"))
              Hfirst eq_refl eq_refl) _)).
    discriminate.
  - refine (proj1 (proj2 (authorizeAll_and countingAuthorize alice 0
              [namespaceRecord "a"; namespaceRecord "c"])) _).
    reflexivity.
Defined.

(** The authorizer denies the second of three sets: status 403, two calls,
    the third set never asked about. *)
Example handle_denied_second :
  handle queryConfig 0 threeRequest
  = Returned (2, [namespaceRecord "a"; namespaceRecord "b"],
              mkHandled false
                (Some (403, "Forbidden (user=alice, verb=get, resource=pods, subresource=)"))
                threeRequest).
Proof. reflexivity. Qed.

(** No captured parameter: status 400, the authorizer never called. *)
Example handle_nothing_captured :
  handle headerConfig 0 plainRequest
  = Returned (0, [],
              mkHandled false
                (Some (400, "Bad Request. The request or configuration is malformed."))
                plainRequest).
Proof. reflexivity. Qed.

(** All sets allowed: the request proceeds with the identity headers set. *)
Example handle_allowed :
  handle headerConfig 0 headerRequest
  = Returned (1, [namespaceRecord "teamA"],
              mkHandled true None
                (requestOf "GET" "/metrics" []
                   [("X-Proj", ["teamA"]); ("X-Remote-User", ["alice"]);
                    ("X-Remote-Groups", ["dev|ops"])])).
Proof. vm_compute. reflexivity. Qed.

(** ** More on the validation of rewrites *)

(** What [InitConfig] does with both rules, by the shape of their lists. *)
Lemma InitConfig_both_cases (cfg : Config) (q : QueryParameterRewriteConfig)
    (h : HTTPHeaderRewriteConfig) :
  Rewrites cfg = Some (mkSubjectAccessReviewRewrites (Some q) (Some h)) →
  Authz.InitConfig cfg
  = match qp_RewriteTargets q, hh_RewriteTargets h with
    | Some ql, Some hl =>
        if Nat.eqb (List.length ql) 0 || Nat.eqb (List.length hl) 0
        then Err Authz.errMissingTargets
        else if Authz.sharesKey (Some (buildSet ql)) (Some (buildSet hl))
             then Err Authz.errNotExclusive
             else Ok (bothMaterialized cfg q h ql hl)
    | _, _ => Err Authz.errMissingTargets
    end.
Proof.
  intros Hrw. unfold Authz.InitConfig. rewrite Hrw. simpl.
  destruct q as [qn [ql |] qs], h as [hn [hl |] hs]; simpl; try reflexivity.
  unfold Authz.checkExclusive. simpl.
  destruct (Nat.eqb (List.length ql) 0 || Nat.eqb (List.length hl) 0); [reflexivity |].
  by destruct (Authz.sharesKey (Some (buildSet ql)) (Some (buildSet hl))).
Qed.

(** X1. [InitConfig] fails only on both rules together, and then exactly
    when a target list is nil or empty or a name is in both lists. A
    configuration with one rule or none is never refused. *)
Theorem InitConfig_rejects_iff (cfg : Config) :
  (∃ e, Authz.InitConfig cfg = Err e)
  ↔ ∃ rw q h,
      Rewrites cfg = Some rw ∧ ByQueryParameter rw = Some q ∧ ByHTTPHeader rw = Some h
      ∧ (sliceElems (qp_RewriteTargets q) = []
         ∨ sliceElems (hh_RewriteTargets h) = []
         ∨ ∃ k, k ∈ sliceElems (qp_RewriteTargets q) ∧ k ∈ sliceElems (hh_RewriteTargets h)).
Proof.
  split.
  - intros [e He]. unfold Authz.InitConfig in He.
    destruct (Rewrites cfg) as [[oq oh] |] eqn:Hrw; [| discriminate].
    destruct oq as [q |], oh as [h |]; simpl in He.
    + exists (mkSubjectAccessReviewRewrites (Some q) (Some h)), q, h.
      repeat split; try done. clear Hrw.
      destruct q as [qn [ql |] qs], h as [hn [hl |] hs]; simpl in *; auto.
      unfold Authz.checkExclusive in He. simpl in He.
      destruct ql as [| q1 ql]; [by left |]. destruct hl as [| h1 hl]; [right; by left |].
      simpl in He. right. right.
      destruct (Authz.sharesKey _ _) eqn:Hshare; [| discriminate].
      by apply sharesKey_buildSet in Hshare.
    + destruct q as [qn [ql |] qs]; discriminate.
    + destruct h as [hn [hl |] hs]; discriminate.
    + discriminate.
  - intros (rw & q & h & Hrw & Hq & Hh & Hbad).
    destruct rw as [oq oh]. simpl in Hq, Hh. subst oq oh.
    rewrite (InitConfig_both_cases cfg q h Hrw).
    destruct (qp_RewriteTargets q) as [ql |], (hh_RewriteTargets h) as [hl |]; simpl in *;
      eauto.
    destruct ql as [| q1 ql]; [eauto |]. destruct hl as [| h1 hl]; [eauto |]. simpl.
    destruct Hbad as [? | [? | Hshare]]; try done.
    apply sharesKey_buildSet in Hshare. rewrite Hshare. eauto.
Qed.

(** X2. What [InitConfig] accepts it hands back with the template, the
    file name, the rules present and their names as they were, and with
    every target list that was set as it was. *)
Theorem InitConfig_keeps (cfg cfg' : Config) :
  Authz.InitConfig cfg = Ok cfg' →
  cfg_ResourceAttributes cfg' = cfg_ResourceAttributes cfg
  ∧ ResourceAttributesFile cfg' = ResourceAttributesFile cfg
  ∧ qp_Name <$> queryRuleOf cfg' = qp_Name <$> queryRuleOf cfg
  ∧ hh_Name <$> headerRuleOf cfg' = hh_Name <$> headerRuleOf cfg
  ∧ (∀ l, queryTargetsOf cfg = Some l → queryTargetsOf cfg' = Some l)
  ∧ (∀ l, headerTargetsOf cfg = Some l → headerTargetsOf cfg' = Some l).
Proof.
  unfold Authz.InitConfig, queryTargetsOf, headerTargetsOf, queryRuleOf, headerRuleOf.
  destruct (Rewrites cfg) as [[oq oh] |] eqn:Hrw; [| intros [= <-]; by rewrite Hrw].
  destruct oq as [[qn qt qs] |], oh as [[hn ht hs] |]; simpl.
  - destruct (Authz.checkExclusive _) eqn:Hcheck; [discriminate |]. intros [= <-].
    destruct qt, ht; simpl; repeat split; try done.
  - destruct qt; simpl; intros [= <-]; repeat split; try done.
  - destruct ht; simpl; intros [= <-]; repeat split; try done.
  - intros [= <-]. by rewrite Hrw.
Qed.

Lemma InitConfig_keeps_witness :
  Authz.InitConfig disjointConfig
  = Ok (bothMaterialized disjointConfig (queryRule (Some [Namespace]))
          (headerRule (Some [Name])) [Namespace] [Name])
  ∧ cfg_ResourceAttributes
      (bothMaterialized disjointConfig (queryRule (Some [Namespace]))
         (headerRule (Some [Name])) [Namespace] [Name])
    = Some podsTemplate.
Proof.
  split; [reflexivity |].
  exact (proj1 (InitConfig_keeps disjointConfig _ eq_refl)).
Defined.

(** X3. In what [InitConfig] accepts, every rule present has a target
    list that is not nil, and [GetRewriteTargetsSet] gives a set with
    exactly the names of that list. *)
Theorem InitConfig_sets_match (cfg cfg' : Config) :
  Authz.InitConfig cfg = Ok cfg' →
  (∀ q, queryRuleOf cfg' = Some q →
     ∃ l s, qp_RewriteTargets q = Some l ∧ qp_GetRewriteTargetsSet q = Some s
            ∧ ∀ k, k ∈ s ↔ k ∈ l)
  ∧ (∀ h, headerRuleOf cfg' = Some h →
     ∃ l s, hh_RewriteTargets h = Some l ∧ hh_GetRewriteTargetsSet h = Some s
            ∧ ∀ k, k ∈ s ↔ k ∈ l).
Proof.
  unfold Authz.InitConfig, queryRuleOf, headerRuleOf.
  destruct (Rewrites cfg) as [[oq oh] |] eqn:Hrw.
  2: { intros [= <-]. rewrite Hrw. simpl. split; intros ? [=]. }
  destruct oq as [[qn qt qs] |], oh as [[hn ht hs] |]; simpl.
  - unfold Authz.checkExclusive. simpl.
    destruct qt as [ql |], ht as [hl |]; simpl; try discriminate.
    destruct (_ || _); [discriminate |]. destruct (Authz.sharesKey _ _); [discriminate |].
    intros [= <-]. simpl. split; intros ? [= <-]; simpl; eexists _, _;
      (split; [done | split; [done | apply elem_of_buildSet]]).
  - destruct qt as [ql |]; simpl; intros [= <-]; simpl;
      (split; [| intros ? [=]]); intros ? [= <-]; simpl; eexists _, _;
      (split; [done | split; [done | apply elem_of_buildSet]]).
  - destruct ht as [hl |]; simpl; intros [= <-]; simpl;
      (split; [intros ? [=] |]); intros ? [= <-]; simpl; eexists _, _;
      (split; [done | split; [done | apply elem_of_buildSet]]).
  - intros [= <-]. rewrite Hrw. simpl. split; intros ? [=].
Qed.

Lemma InitConfig_sets_match_witness :
  ∃ l s, qp_RewriteTargets
           (mkQueryParameterRewriteConfig "ns" (Some allResourceAttributesNames)
              (Some (buildSet allResourceAttributesNames))) = Some l
         ∧ qp_GetRewriteTargetsSet
             (mkQueryParameterRewriteConfig "ns" (Some allResourceAttributesNames)
                (Some (buildSet allResourceAttributesNames))) = Some s
         ∧ ∀ k, k ∈ s ↔ k ∈ l.
Proof.
  exact (proj1 (InitConfig_sets_match loneQueryConfig
                  (queryDefaulted loneQueryConfig (queryRule None)) eq_refl)
           _ eq_refl).
Defined.

(** X4. The [InitConfig] of auth.go:88-110 returns exactly when no rule
    or both rules are present; it never refuses a configuration. *)
Theorem InitConfig_unguarded_returns_iff (cfg : Config) :
  (∃ cfg', AuthzDefaults.InitConfig cfg = Returned cfg')
  ↔ (queryRuleOf cfg = None ↔ headerRuleOf cfg = None).
Proof.
  unfold AuthzDefaults.InitConfig, queryRuleOf, headerRuleOf.
  destruct (Rewrites cfg) as [[oq oh] |]; simpl; [| split; [done | eauto]].
  destruct oq as [[qn [ql |] qs] |], oh as [[hn [hl |] hs] |]; simpl.
  all: split; [intros [cfg' Hret] | intros [Hq Hh]].
  all: try discriminate Hret.
  all: try (split; intros; discriminate).
  all: try (by eexists).
  all: try (by specialize (Hq eq_refl)).
  all: try (by specialize (Hh eq_refl)).
  all: done.
Qed.

(** X5. Where the validating [InitConfig] accepts a configuration with
    both rules or with none, the [InitConfig] of auth.go:88-110 returns
    the same configuration. *)
Theorem InitConfig_versions_agree (cfg cfg' : Config) :
  Authz.InitConfig cfg = Ok cfg' →
  (queryRuleOf cfg = None ↔ headerRuleOf cfg = None) →
  AuthzDefaults.InitConfig cfg = Returned cfg'.
Proof.
  unfold Authz.InitConfig, AuthzDefaults.InitConfig, queryRuleOf, headerRuleOf.
  destruct (Rewrites cfg) as [[oq oh] |]; simpl; [| by intros [= <-]].
  destruct oq as [[qn qt qs] |], oh as [[hn ht hs] |]; simpl.
  - unfold Authz.checkExclusive. simpl.
    destruct qt as [ql |], ht as [hl |]; simpl; try discriminate.
    destruct (_ || _); [discriminate |]. destruct (Authz.sharesKey _ _); [discriminate |].
    by intros [= <-].
  - intros _ [_ H]. by specialize (H eq_refl).
  - intros _ [H _]. by specialize (H eq_refl).
  - by intros [= <-].
Qed.

Lemma InitConfig_versions_agree_witness :
  AuthzDefaults.InitConfig disjointConfig
  = Returned (bothMaterialized disjointConfig (queryRule (Some [Namespace]))
                (headerRule (Some [Name])) [Namespace] [Name]).
Proof.
  apply (InitConfig_versions_agree disjointConfig); [reflexivity |].
  split; discriminate.
Defined.

(** ** More on resolving the attributes of a request *)

Section ResolveMore.

Context {Template : Type}.
Variable Parse : string -> Result Template.
Variable Execute : Template -> string -> string * option string.
Variable CanonicalMIMEHeaderKey : string -> string.

Lemma rewrittenAttributes_shape (u : UserInfo) (verb : string) (ra : ResourceAttributes)
    (v : string) (rewriteTargets : list string) (attrs : AttributesRecord) :
  rewrittenAttributes Parse Execute u verb ra v rewriteTargets = Returned attrs →
  User attrs = u ∧ Verb attrs = verb ∧ ResourceRequest attrs = true ∧ Path attrs = "".
Proof.
  unfold rewrittenAttributes.
  repeat match goal with
         | |- context [templateWithValue Parse Execute ?a ?t ?x ?ts] =>
             destruct (templateWithValue Parse Execute a t x ts); simpl; [| discriminate]
         end.
  by intros [= <-].
Qed.

Lemma rewriteAll_shape (P : AttributesRecord → Prop) (u : UserInfo) (verb : string)
    (ra : ResourceAttributes) (rw : SubjectAccessReviewRewrites)
    (parameters : list rewriteParameter) (allAttrs result : list AttributesRecord) :
  (∀ p attrs, attributesFor Parse Execute u verb ra rw p = Returned attrs → P attrs) →
  Forall P allAttrs →
  rewriteAll Parse Execute u verb ra rw parameters allAttrs = Returned result →
  Forall P result.
Proof.
  intros Heach. revert allAttrs.
  induction parameters as [| p rest IH]; intros allAttrs Hacc; simpl.
  - by intros [= <-].
  - destruct (attributesFor Parse Execute u verb ra rw p) as [attrs |] eqn:Hp;
      [| discriminate].
    simpl. apply IH. apply Forall_app. split; [done |]. constructor; [| constructor].
    by apply (Heach p).
Qed.

(** X6. Every record returned names the caller and the verb of the
    request method. With a template it is a resource request with an
    empty path; without one it is a non-resource request carrying the path
    of the request. *)
Theorem GetRequestAttributes_shape (cfg : Config) (u : UserInfo) (r : Request)
    (result : list AttributesRecord) :
  GetRequestAttributes Parse Execute CanonicalMIMEHeaderKey cfg u r = Returned result →
  Forall (fun attrs =>
            User attrs = u ∧ Verb attrs = apiVerb (Method r)
            ∧ match cfg_ResourceAttributes cfg with
              | Some _ => ResourceRequest attrs = true ∧ Path attrs = ""
              | None => ResourceRequest attrs = false ∧ Path attrs = URL_Path r
              end) result.
Proof.
  unfold GetRequestAttributes.
  destruct (cfg_ResourceAttributes cfg) as [ra |];
    [| intros [= <-]; by repeat constructor].
  destruct (Rewrites cfg) as [rw |]; [| intros [= <-]; by repeat constructor].
  destruct (Nat.eqb _ 0); [intros [= <-]; constructor |].
  apply rewriteAll_shape; [| constructor].
  intros p attrs. unfold attributesFor.
  destruct (targetsOf rw p) as [targets |]; [| discriminate]. simpl.
  intros Hbuilt. apply rewrittenAttributes_shape in Hbuilt. tauto.
Qed.

(** With a template and rewrites, where every template that the targets
    of a captured parameter name parses, there is one rendered record per
    captured parameter; none if none was captured. *)
Lemma GetRequestAttributes_parsed (cfg : Config) (ra : ResourceAttributes)
    (rw : SubjectAccessReviewRewrites) (u : UserInfo) (r : Request) :
  cfg_ResourceAttributes cfg = Some ra →
  Rewrites cfg = Some rw →
  (∀ p, p ∈ collectParameters CanonicalMIMEHeaderKey rw r →
        targetsParse Parse ra (targetsFor rw p)) →
  GetRequestAttributes Parse Execute CanonicalMIMEHeaderKey cfg u r
  = Returned (map (renderedAttributes Parse Execute u (apiVerb (Method r)) ra rw)
                  (collectParameters CanonicalMIMEHeaderKey rw r)).
Proof.
  intros Hra Hrw Hparse.
  destruct (collectParameters CanonicalMIMEHeaderKey rw r) as [| p0 rest] eqn:Hparams.
  - unfold GetRequestAttributes. by rewrite Hra, Hrw, Hparams.
  - rewrite <- Hparams in *. apply GetRequestAttributes_rewritten; try done.
    by rewrite Hparams.
Qed.

(** X7. With a template and rewrites, the call returns exactly when every
    template that the targets of a captured parameter name parses, and
    what it returns is one record per captured parameter, in their order,
    each rendered with the targets of the rule the parameter came from. *)
Theorem GetRequestAttributes_exactly (cfg : Config) (ra : ResourceAttributes)
    (rw : SubjectAccessReviewRewrites) (u : UserInfo) (r : Request) :
  cfg_ResourceAttributes cfg = Some ra →
  Rewrites cfg = Some rw →
  ((∃ result, GetRequestAttributes Parse Execute CanonicalMIMEHeaderKey cfg u r
              = Returned result)
   ↔ ∀ p, p ∈ collectParameters CanonicalMIMEHeaderKey rw r →
          targetsParse Parse ra (targetsFor rw p))
  ∧ (∀ result,
       GetRequestAttributes Parse Execute CanonicalMIMEHeaderKey cfg u r = Returned result →
       result = map (renderedAttributes Parse Execute u (apiVerb (Method r)) ra rw)
                    (collectParameters CanonicalMIMEHeaderKey rw r)).
Proof.
  intros Hra Hrw.
  assert (Hiff : (∃ result, GetRequestAttributes Parse Execute CanonicalMIMEHeaderKey cfg u r
                            = Returned result)
                 ↔ ∀ p, p ∈ collectParameters CanonicalMIMEHeaderKey rw r →
                        targetsParse Parse ra (targetsFor rw p)).
  { destruct (collectParameters CanonicalMIMEHeaderKey rw r) as [| p0 rest] eqn:Hparams.
    - split.
      + intros _ p Hp. by apply not_elem_of_nil in Hp.
      + intros _. exists []. unfold GetRequestAttributes. by rewrite Hra, Hrw, Hparams.
    - rewrite <- Hparams. apply GetRequestAttributes_returns; try done. by rewrite Hparams. }
  split; [exact Hiff |].
  intros result Hresult.
  rewrite (GetRequestAttributes_parsed cfg ra rw u r Hra Hrw) in Hresult
    by (apply Hiff; eauto).
  by injection Hresult as <-.
Qed.

Lemma noTargets_targetsFor (rw : SubjectAccessReviewRewrites) (p : rewriteParameter) :
  noTargets rw → targetsFor rw p = [].
Proof.
  intros [Hq Hh]. unfold targetsFor. destruct (source p).
  - destruct (ByQueryParameter rw) as [q |]; [by apply Hq | done].
  - destruct (ByHTTPHeader rw) as [h |]; [by apply Hh | done].
Qed.

Lemma targetsParse_nil (ra : ResourceAttributes) : targetsParse Parse ra [].
Proof. intros attribute templateString _ Hin. by apply not_elem_of_nil in Hin. Qed.

(** X8. When no rule has a target, its list nil or empty, no template is
    parsed: there is one record per captured parameter, each the template
    as configured, whatever the templates and the captured values are. *)
Theorem GetRequestAttributes_no_targets (cfg : Config) (ra : ResourceAttributes)
    (rw : SubjectAccessReviewRewrites) (u : UserInfo) (r : Request) :
  cfg_ResourceAttributes cfg = Some ra →
  Rewrites cfg = Some rw →
  noTargets rw →
  GetRequestAttributes Parse Execute CanonicalMIMEHeaderKey cfg u r
  = Returned (map (fun _ => verbatimRecord u (apiVerb (Method r)) ra)
                  (collectParameters CanonicalMIMEHeaderKey rw r)).
Proof.
  intros Hra Hrw Hnone.
  rewrite (GetRequestAttributes_parsed cfg ra rw u r Hra Hrw).
  - f_equal. apply map_ext. intros p.
    unfold renderedAttributes, verbatimRecord. by rewrite (noTargets_targetsFor rw p Hnone).
  - intros p _. rewrite (noTargets_targetsFor rw p Hnone). apply targetsParse_nil.
Qed.

Lemma templateWithValue_same_targets (attribute templateString v : string)
    (l l' : list string) :
  attribute ∈ allResourceAttributesNames →
  sameTargets l l' →
  templateWithValue Parse Execute attribute templateString v l
  = templateWithValue Parse Execute attribute templateString v l'.
Proof.
  intros Hname Hsame. unfold templateWithValue. rewrite !isRewriteTarget_elem.
  by rewrite (bool_decide_ext _ _ (Hsame attribute Hname)).
Qed.

Lemma rewrittenAttributes_same_targets (u : UserInfo) (verb : string)
    (ra : ResourceAttributes) (v : string) (l l' : list string) :
  sameTargets l l' →
  rewrittenAttributes Parse Execute u verb ra v l
  = rewrittenAttributes Parse Execute u verb ra v l'.
Proof.
  intros Hsame. unfold rewrittenAttributes.
  rewrite (templateWithValue_same_targets Namespace _ _ l l'),
          (templateWithValue_same_targets ApiGroup _ _ l l'),
          (templateWithValue_same_targets APIVersion _ _ l l'),
          (templateWithValue_same_targets Resource _ _ l l'),
          (templateWithValue_same_targets Subresource _ _ l l'),
          (templateWithValue_same_targets Name _ _ l l');
    try done; unfold allResourceAttributesNames;
    repeat first [apply list_elem_of_here | apply list_elem_of_further].
Qed.

Lemma collectParameters_same_rules (rw rw' : SubjectAccessReviewRewrites) (r : Request) :
  sameRules rw rw' →
  collectParameters CanonicalMIMEHeaderKey rw r = collectParameters CanonicalMIMEHeaderKey rw' r.
Proof.
  intros [Hq Hh]. unfold collectParameters, queryParameters, headerParameters.
  destruct (ByQueryParameter rw) as [q |], (ByQueryParameter rw') as [q' |]; try done;
    destruct (ByHTTPHeader rw) as [h |], (ByHTTPHeader rw') as [h' |]; try done.
  - destruct Hq as [-> _], Hh as [-> _]. done.
  - destruct Hq as [-> _]. done.
  - destruct Hh as [-> _]. done.
Qed.

Lemma attributesFor_same_rules (u : UserInfo) (verb : string) (ra : ResourceAttributes)
    (rw rw' : SubjectAccessReviewRewrites) (p : rewriteParameter) :
  sameRules rw rw' →
  attributesFor Parse Execute u verb ra rw p = attributesFor Parse Execute u verb ra rw' p.
Proof.
  intros [Hq Hh]. unfold attributesFor, targetsOf.
  destruct (source p); simpl.
  - destruct (ByQueryParameter rw) as [q |], (ByQueryParameter rw') as [q' |]; try done.
    simpl. apply rewrittenAttributes_same_targets. by destruct Hq.
  - destruct (ByHTTPHeader rw) as [h |], (ByHTTPHeader rw') as [h' |]; try done.
    simpl. apply rewrittenAttributes_same_targets. by destruct Hh.
Qed.

Lemma rewriteAll_same_rules (u : UserInfo) (verb : string) (ra : ResourceAttributes)
    (rw rw' : SubjectAccessReviewRewrites) (parameters : list rewriteParameter)
    (allAttrs : list AttributesRecord) :
  sameRules rw rw' →
  rewriteAll Parse Execute u verb ra rw parameters allAttrs
  = rewriteAll Parse Execute u verb ra rw' parameters allAttrs.
Proof.
  intros Hsame. revert allAttrs.
  induction parameters as [| p rest IH]; intros allAttrs; simpl; [done |].
  rewrite (attributesFor_same_rules u verb ra rw rw' p Hsame).
  destruct (attributesFor Parse Execute u verb ra rw' p); simpl; [apply IH | done].
Qed.

(** X9. The records depend on a target list only through which of the
    six field names it holds: names that are no field, the order of the
    names and their repetition change nothing. *)
Theorem GetRequestAttributes_same_rules (cfg cfg' : Config)
    (rw rw' : SubjectAccessReviewRewrites) (u : UserInfo) (r : Request) :
  cfg_ResourceAttributes cfg = cfg_ResourceAttributes cfg' →
  Rewrites cfg = Some rw →
  Rewrites cfg' = Some rw' →
  sameRules rw rw' →
  GetRequestAttributes Parse Execute CanonicalMIMEHeaderKey cfg u r
  = GetRequestAttributes Parse Execute CanonicalMIMEHeaderKey cfg' u r.
Proof.
  intros Hra Hrw Hrw' Hsame. unfold GetRequestAttributes. rewrite Hra, Hrw, Hrw'.
  rewrite (collectParameters_same_rules rw rw' r Hsame).
  destruct (cfg_ResourceAttributes cfg') as [ra |]; [| done].
  destruct (Nat.eqb _ 0); [done |]. by apply rewriteAll_same_rules.
Qed.

(** X10. A rule whose name is empty captures nothing. With a template
    and only such rules in the rewrites, no request has a record. *)
Theorem GetRequestAttributes_unnamed_rules (cfg : Config) (ra : ResourceAttributes)
    (rw : SubjectAccessReviewRewrites) (u : UserInfo) (r : Request) :
  cfg_ResourceAttributes cfg = Some ra →
  Rewrites cfg = Some rw →
  (∀ q, ByQueryParameter rw = Some q → qp_Name q = "") →
  (∀ h, ByHTTPHeader rw = Some h → hh_Name h = "") →
  GetRequestAttributes Parse Execute CanonicalMIMEHeaderKey cfg u r = Returned [].
Proof.
  intros Hra Hrw Hq Hh. unfold GetRequestAttributes. rewrite Hra, Hrw.
  assert (Hnone : collectParameters CanonicalMIMEHeaderKey rw r = []).
  { unfold collectParameters, queryParameters, headerParameters.
    destruct (ByQueryParameter rw) as [q |]; [rewrite (Hq q eq_refl) |];
      (destruct (ByHTTPHeader rw) as [h |]; [rewrite (Hh h eq_refl) |]); done. }
  by rewrite Hnone.
Qed.

(** X11. With a template, the path of the request plays no part, and
    the method only through its verb: two requests with the same query
    parameters and headers whose methods have the same verb get the same
    records. *)
Theorem GetRequestAttributes_resource_mode (cfg : Config) (ra : ResourceAttributes)
    (u : UserInfo) (r r' : Request) :
  cfg_ResourceAttributes cfg = Some ra →
  apiVerb (Method r) = apiVerb (Method r') →
  URL_Query r = URL_Query r' →
  Header r = Header r' →
  GetRequestAttributes Parse Execute CanonicalMIMEHeaderKey cfg u r
  = GetRequestAttributes Parse Execute CanonicalMIMEHeaderKey cfg u r'.
Proof.
  intros Hra Hverb Hquery Hheader. unfold GetRequestAttributes.
  rewrite Hra, Hverb. destruct (Rewrites cfg) as [rw |]; [| done].
  unfold collectParameters, queryParameters, headerParameters.
  by rewrite Hquery, Hheader.
Qed.

End ResolveMore.

Lemma GetRequestAttributes_shape_witness :
  Forall (fun attrs =>
            User attrs = alice ∧ Verb attrs = "get"
            ∧ ResourceRequest attrs = true ∧ Path attrs = "")
         [namespaceRecord "a"; namespaceRecord "b"].
Proof.
  exact (GetRequestAttributes_shape ValueTemplate.Parse ValueTemplate.Execute
           Textproto.CanonicalMIMEHeaderKey queryConfig alice queryRequest _ eq_refl).
Defined.

Lemma GetRequestAttributes_exactly_witness :
  [namespaceRecord "a"; namespaceRecord "b"]
  = map (renderedAttributes ValueTemplate.Parse ValueTemplate.Execute alice "get"
           podsTemplate
           (mkSubjectAccessReviewRewrites (Some (queryRule (Some [Namespace]))) None))
        [mkRewriteParameter "a" RewriteValueSourceQueryParams;
         mkRewriteParameter "b" RewriteValueSourceQueryParams].
Proof.
  exact (proj2 (GetRequestAttributes_exactly ValueTemplate.Parse ValueTemplate.Execute
                  Textproto.CanonicalMIMEHeaderKey queryConfig podsTemplate _ alice
                  queryRequest eq_refl eq_refl)
           [namespaceRecord "a"; namespaceRecord "b"] eq_refl).
Defined.

Lemma GetRequestAttributes_no_targets_witness :
  resolve emptyTargetsConfig alice queryRequest
  = Returned [namespaceRecord "{{.Value"; namespaceRecord "{{.Value"].
Proof.
  refine (GetRequestAttributes_no_targets ValueTemplate.Parse ValueTemplate.Execute
            Textproto.CanonicalMIMEHeaderKey emptyTargetsConfig unclosedTemplate _ alice
            queryRequest eq_refl eq_refl _).
  split.
  - intros q [= <-]. reflexivity.
  - intros h [=].
Defined.

Lemma GetRequestAttributes_same_rules_witness :
  resolve noisyQueryConfig alice queryRequest = resolve queryConfig alice queryRequest.
Proof.
  refine (GetRequestAttributes_same_rules ValueTemplate.Parse ValueTemplate.Execute
            Textproto.CanonicalMIMEHeaderKey noisyQueryConfig queryConfig _ _ alice
            queryRequest eq_refl eq_refl eq_refl _).
  split; [| exact I]. split; [reflexivity |].
  intros a Ha. simpl. rewrite !elem_of_cons. split.
  - intros [-> | [-> | [-> | Hnil]]]; [by left | | by left | by apply not_elem_of_nil in Hnil].
    unfold allResourceAttributesNames in Ha. rewrite !elem_of_cons in Ha.
    destruct Ha as [? | [? | [? | [? | [? | [? | Hnil]]]]]]; try discriminate.
    by apply not_elem_of_nil in Hnil.
  - intros [-> | Hnil]; [by left | by apply not_elem_of_nil in Hnil].
Defined.

Lemma GetRequestAttributes_unnamed_rules_witness :
  resolve unnamedConfig alice unnamedRequest = Returned [].
Proof.
  refine (GetRequestAttributes_unnamed_rules ValueTemplate.Parse ValueTemplate.Execute
            Textproto.CanonicalMIMEHeaderKey unnamedConfig podsTemplate _ alice
            unnamedRequest eq_refl eq_refl _ _).
  - intros q [= <-]. reflexivity.
  - intros h [=].
Defined.

Lemma GetRequestAttributes_resource_mode_witness :
  resolve queryConfig alice headRequest = resolve queryConfig alice optionsRequest.
Proof.
  exact (GetRequestAttributes_resource_mode ValueTemplate.Parse ValueTemplate.Execute
           Textproto.CanonicalMIMEHeaderKey queryConfig podsTemplate alice
           headRequest optionsRequest eq_refl eq_refl eq_refl eq_refl).
Defined.

(** ** More on handling a request *)

Section HandleMore.

Context {Template : Type}.
Variable Parse : string -> Result Template.
Variable Execute : Template -> string -> string * option string.
Variable CanonicalMIMEHeaderKey : string -> string.
Context {AuthorizerState : Type}.
Variable Authorize : AuthorizerState -> AttributesRecord -> AuthorizerState * AuthorizeReply.
Variable AuthenticateRequest : Request -> AuthenticateReply.
Variable headerCfg : AuthnHeaderConfig.
Variable authzConfig : Config.

Lemma Handle_authentication_error (st : AuthorizerState) (req : Request) (e : string) :
  au_err (AuthenticateRequest req) = Some e →
  Handle Parse Execute CanonicalMIMEHeaderKey Authorize AuthenticateRequest
         headerCfg authzConfig st req
  = Returned (st, [], mkHandled false (Some (StatusUnauthorized, "Unauthorized")) req).
Proof. intros Herr. unfold Handle. by rewrite Herr. Qed.

Lemma Handle_authentication_denied (st : AuthorizerState) (req : Request) :
  au_ok (AuthenticateRequest req) = false →
  Handle Parse Execute CanonicalMIMEHeaderKey Authorize AuthenticateRequest
         headerCfg authzConfig st req
  = Returned (st, [], mkHandled false (Some (StatusUnauthorized, "Unauthorized")) req).
Proof.
  intros Hno. unfold Handle. rewrite Hno. by destruct (au_err (AuthenticateRequest req)).
Qed.

(** X12. A caller the authenticator turns away, by an error or by
    saying no, gets status 401: nothing is resolved, the authorizer is not
    asked and keeps its state, and the request is left as it came. *)
Theorem Handle_unauthenticated (st : AuthorizerState) (req : Request) :
  unauthenticated (AuthenticateRequest req) →
  Handle Parse Execute CanonicalMIMEHeaderKey Authorize AuthenticateRequest
         headerCfg authzConfig st req
  = Returned (st, [], mkHandled false (Some (StatusUnauthorized, "Unauthorized")) req).
Proof.
  intros [Herr | Hno].
  - destruct (au_err (AuthenticateRequest req)) as [e |] eqn:He; [| done].
    by apply (Handle_authentication_error st req e).
  - by apply Handle_authentication_denied.
Qed.

Lemma Handle_authenticated (st : AuthorizerState) (req : Request) (u : UserInfo) :
  authenticatedAs (AuthenticateRequest req) u →
  Handle Parse Execute CanonicalMIMEHeaderKey Authorize AuthenticateRequest
         headerCfg authzConfig st req
  = obind (GetRequestAttributes Parse Execute CanonicalMIMEHeaderKey authzConfig u req)
      (fun allAttrs =>
         if Nat.eqb (List.length allAttrs) 0 then
           Returned
             (st, [],
              mkHandled false
                (Some (StatusBadRequest,
                       "Bad Request. The request or configuration is malformed."))
                req)
         else
           let '(st', calls, verdict) := authorizeAll Authorize u st allAttrs in
           match verdict with
           | Rejected status msg =>
               Returned (st', calls, mkHandled false (Some (status, msg)) req)
           | AllAllowed =>
               Returned (st', calls,
                         mkHandled true None
                           (propagateIdentity CanonicalMIMEHeaderKey headerCfg u req))
           end).
Proof. intros (Herr & Hok & Hu). unfold Handle. by rewrite Herr, Hok, Hu. Qed.

Lemma Handle_turned_back (st : AuthorizerState) (req : Request) :
  unauthenticated (AuthenticateRequest req) →
  Handle Parse Execute CanonicalMIMEHeaderKey Authorize AuthenticateRequest
         headerCfg authzConfig st req
  = Returned (st, [], mkHandled false (Some (StatusUnauthorized, "Unauthorized")) req)
  ∧ ¬ (au_err (AuthenticateRequest req) = None ∧ au_ok (AuthenticateRequest req) = true).
Proof.
  intros [Herr | Hno].
  - destruct (au_err (AuthenticateRequest req)) as [e |] eqn:He; [| done].
    split; [by apply (Handle_authentication_error st req e) | by intros [? _]].
  - split; [by apply Handle_authentication_denied |]. intros [_ Hok]. congruence.
Qed.

(** Either the caller is turned away or it is authenticated, with or
    without a user. *)
Lemma authenticate_cases (reply : AuthenticateReply) :
  unauthenticated reply
  ∨ (∃ u, authenticatedAs reply u)
  ∨ (au_err reply = None ∧ au_ok reply = true ∧ au_response reply = None).
Proof.
  unfold unauthenticated, authenticatedAs.
  destruct (au_err reply) as [e |]; [by left; left |].
  destruct (au_ok reply); [| by left; right].
  destruct (au_response reply) as [u |]; [right; left; by exists u | by right; right].
Qed.

Lemma authorizeAll_rejected_status (u : UserInfo) (st : AuthorizerState)
    (allAttrs : list AttributesRecord) (status : nat) (msg : string) :
  (authorizeAll Authorize u st allAttrs).2 = Rejected status msg →
  status = StatusForbidden ∨ status = StatusInternalServerError.
Proof.
  revert st. induction allAttrs as [| attrs rest IH]; intros st; simpl; [done |].
  destruct (Authorize st attrs) as [st' reply].
  destruct (err reply) as [e |]; simpl; [intros [= <- _]; by right |].
  destruct (negb (Decision_eqb (authorized reply) DecisionAllow)); simpl;
    [intros [= <- _]; by left |].
  specialize (IH st'). destruct (authorizeAll Authorize u st' rest) as [[st'' calls] verdict].
  simpl in *. done.
Qed.

(** X13. When [Handle] returns false, it has written one of the status
    codes 400, 401, 403 and 500 and left the request as it came; when it
    returns true, it has written nothing. *)
Theorem Handle_turned_away (st st' : AuthorizerState) (req : Request)
    (calls : list AttributesRecord) (h : Handled) :
  Handle Parse Execute CanonicalMIMEHeaderKey Authorize AuthenticateRequest
         headerCfg authzConfig st req
  = Returned (st', calls, h) →
  (proceed h = true ∧ response h = None)
  ∨ (proceed h = false ∧ forwarded h = req
     ∧ ∃ status msg, response h = Some (status, msg)
                     ∧ status ∈ [StatusBadRequest; StatusUnauthorized; StatusForbidden;
                                 StatusInternalServerError]).
Proof.
  destruct (authenticate_cases (AuthenticateRequest req)) as [Hno | [[u Hu] | Hghost]].
  - rewrite (proj1 (Handle_turned_back st req Hno)). intros [= <- <- <-]. right.
    repeat split. eexists _, _. split; [done |]. set_solver.
  - rewrite (Handle_authenticated st req u Hu).
    destruct (GetRequestAttributes _ _ _ authzConfig u req) as [allAttrs |]; [| discriminate].
    simpl. destruct (Nat.eqb _ 0).
    + intros [= <- <- <-]. right. repeat split. eexists _, _. split; [done |]. set_solver.
    + pose proof (authorizeAll_rejected_status u st allAttrs) as Hstatus.
      destruct (authorizeAll Authorize u st allAttrs) as [[st'' calls'] verdict].
      simpl in Hstatus. destruct verdict as [| status msg].
      * intros [= <- <- <-]. by left.
      * intros [= <- <- <-]. right. repeat split. exists status, msg. split; [done |].
        destruct (Hstatus status msg eq_refl) as [-> | ->]; set_solver.
  - destruct Hghost as (Herr & Hok & Hu). unfold Handle. rewrite Herr, Hok, Hu. discriminate.
Qed.

(** X14. [Handle] lets a request through exactly in this case: the
    caller is authenticated, at least one attribute set is resolved, and
    the authorizer, asked about the sets in order, allows each. It was
    then asked about every set once, in order, and the request goes on
    with the identity headers. *)
Theorem Handle_proceeds_iff (st st' : AuthorizerState) (req : Request)
    (calls : list AttributesRecord) (h : Handled) :
  (Handle Parse Execute CanonicalMIMEHeaderKey Authorize AuthenticateRequest
          headerCfg authzConfig st req
   = Returned (st', calls, h)
   ∧ proceed h = true)
  ↔ ∃ u, authenticatedAs (AuthenticateRequest req) u
         ∧ GetRequestAttributes Parse Execute CanonicalMIMEHeaderKey authzConfig u req
           = Returned calls
         ∧ calls ≠ []
         ∧ Forall allows (repliesInOrder Authorize st calls)
         ∧ st' = (authorizeAll Authorize u st calls).1.1
         ∧ h = mkHandled true None (propagateIdentity CanonicalMIMEHeaderKey headerCfg u req).
Proof.
  split.
  - intros [Hhandle Hproceed].
    destruct (authenticate_cases (AuthenticateRequest req)) as [Hno | [[u Hu] | Hghost]].
    + rewrite (proj1 (Handle_turned_back st req Hno)) in Hhandle.
      injection Hhandle as <- <- <-. discriminate.
    + exists u. split; [done |]. rewrite (Handle_authenticated st req u Hu) in Hhandle.
      destruct (GetRequestAttributes _ _ _ authzConfig u req) as [allAttrs |];
        [| discriminate].
      simpl in Hhandle. destruct allAttrs as [| a rest].
      { simpl in Hhandle. injection Hhandle as <- <- <-. discriminate. }
      cbn [List.length Nat.eqb] in Hhandle.
      pose proof (authorizeAll_allowed Authorize u st (a :: rest)) as Hallowed.
      pose proof (authorizeAll_allowed_calls Authorize u st (a :: rest)) as Hcalls.
      destruct (authorizeAll Authorize u st (a :: rest)) as [[st'' calls'] verdict] eqn:Hrun.
      simpl in Hallowed, Hcalls. destruct verdict as [| status msg].
      * injection Hhandle as <- <- <-. rewrite (Hcalls eq_refl).
        repeat split; try done; [by apply Hallowed | by rewrite Hrun].
      * injection Hhandle as <- <- <-. discriminate.
    + destruct Hghost as (Herr & Hok & Hu). unfold Handle in Hhandle.
      rewrite Herr, Hok, Hu in Hhandle. discriminate.
  - intros (u & Hu & Hattrs & Hsome & Hallow & -> & ->).
    rewrite (Handle_authenticated st req u Hu), Hattrs. simpl.
    destruct calls as [| a rest]; [done |]. cbn [List.length Nat.eqb].
    pose proof (proj2 (authorizeAll_allowed Authorize u st (a :: rest)) Hallow) as Hverdict.
    pose proof (authorizeAll_allowed_calls Authorize u st (a :: rest) Hverdict) as Hcalls.
    destruct (authorizeAll Authorize u st (a :: rest)) as [[st'' calls'] verdict].
    simpl in *. subst verdict calls'. done.
Qed.

(** X15. An authenticated caller for whom nothing is resolved gets status
    400; the authorizer is not asked. *)
Theorem Handle_bad_request (st : AuthorizerState) (req : Request) (u : UserInfo) :
  authenticatedAs (AuthenticateRequest req) u →
  GetRequestAttributes Parse Execute CanonicalMIMEHeaderKey authzConfig u req = Returned [] →
  Handle Parse Execute CanonicalMIMEHeaderKey Authorize AuthenticateRequest
         headerCfg authzConfig st req
  = Returned (st, [],
              mkHandled false
                (Some (StatusBadRequest,
                       "Bad Request. The request or configuration is malformed."))
                req).
Proof. intros Hu Hnone. by rewrite (Handle_authenticated st req u Hu), Hnone. Qed.

(** X16. For an authenticated caller, the first reply that is not an
    allow decides: [Handle] returns false with status 500 if the reply
    carries an error and 403 otherwise, names the caller and the refused
    set in the message, and has asked about the sets up to that one only. *)
Theorem Handle_first_refusal (st : AuthorizerState) (req : Request) (u : UserInfo)
    (allAttrs : list AttributesRecord) (k : nat) (attrs : AttributesRecord)
    (reply : AuthorizeReply) :
  authenticatedAs (AuthenticateRequest req) u →
  GetRequestAttributes Parse Execute CanonicalMIMEHeaderKey authzConfig u req
  = Returned allAttrs →
  Forall allows (take k (repliesInOrder Authorize st allAttrs)) →
  repliesInOrder Authorize st allAttrs !! k = Some reply →
  allAttrs !! k = Some attrs →
  ¬ allows reply →
  ∃ st',
    Handle Parse Execute CanonicalMIMEHeaderKey Authorize AuthenticateRequest
           headerCfg authzConfig st req
    = Returned (st', take (S k) allAttrs,
                mkHandled false
                  (Some (match err reply with
                         | Some _ => (StatusInternalServerError,
                                      rejection "Authorization error" u attrs)
                         | None => (StatusForbidden, rejection "Forbidden" u attrs)
                         end))
                  req).
Proof.
  intros Hu Hattrs Hbefore Hreply Hk Hnot.
  rewrite (Handle_authenticated st req u Hu), Hattrs. simpl.
  destruct allAttrs as [| a rest]; [done |]. cbn [List.length Nat.eqb].
  destruct (authorizeAll_first_failure Authorize u st (a :: rest) k attrs reply
              Hbefore Hreply Hk Hnot) as [Hcalls Hverdict].
  destruct (authorizeAll Authorize u st (a :: rest)) as [[st' calls] verdict].
  simpl in Hcalls, Hverdict. subst calls verdict. exists st'.
  by destruct (err reply).
Qed.


(** X18. With identity headers on, the request that goes on carries the
    groups header with the one value made of the caller's groups, and,
    when the two header names differ after canonicalisation, the user
    header with the one value of the caller's name; values the client sent
    under these names are gone, every other header and the rest of the
    request are as they came. With identity headers off nothing changes. *)
Theorem propagateIdentity_headers (u : UserInfo) (req : Request) :
  (Enabled headerCfg = false →
   propagateIdentity CanonicalMIMEHeaderKey headerCfg u req = req)
  ∧ (Enabled headerCfg = true →
     Header (propagateIdentity CanonicalMIMEHeaderKey headerCfg u req)
       !! CanonicalMIMEHeaderKey (GroupsFieldName headerCfg)
     = Some [Join (GetGroups u) (GroupSeparator headerCfg)]
     ∧ (CanonicalMIMEHeaderKey (UserFieldName headerCfg)
        ≠ CanonicalMIMEHeaderKey (GroupsFieldName headerCfg) →
        Header (propagateIdentity CanonicalMIMEHeaderKey headerCfg u req)
          !! CanonicalMIMEHeaderKey (UserFieldName headerCfg)
        = Some [GetName u])
     ∧ (∀ key, key ≠ CanonicalMIMEHeaderKey (UserFieldName headerCfg) →
               key ≠ CanonicalMIMEHeaderKey (GroupsFieldName headerCfg) →
               Header (propagateIdentity CanonicalMIMEHeaderKey headerCfg u req) !! key
               = Header req !! key)
     ∧ Method (propagateIdentity CanonicalMIMEHeaderKey headerCfg u req) = Method req
     ∧ URL_Path (propagateIdentity CanonicalMIMEHeaderKey headerCfg u req) = URL_Path req
     ∧ URL_Query (propagateIdentity CanonicalMIMEHeaderKey headerCfg u req) = URL_Query req).
Proof.
  unfold propagateIdentity, Header_Set. split; intros ->; [done |]. simpl.
  repeat split.
  - apply lookup_insert_eq.
  - intros Hne. rewrite lookup_insert_ne by done. apply lookup_insert_eq.
  - intros key Hu Hg. by rewrite !lookup_insert_ne.
Qed.

End HandleMore.

Lemma Handle_unauthenticated_witness :
  handleWith nobodyAuthenticate unclosedConfig 0 headerRequest
  = Returned (0, [], mkHandled false (Some (401, "Unauthorized")) headerRequest).
Proof.
  refine (Handle_unauthenticated ValueTemplate.Parse ValueTemplate.Execute
            Textproto.CanonicalMIMEHeaderKey countingAuthorize nobodyAuthenticate
            identityHeaders unclosedConfig 0 headerRequest _).
  right. reflexivity.
Defined.

Lemma Handle_turned_away_witness :
  (proceed (mkHandled false
              (Some (403, "Forbidden (user=alice, verb=get, resource=pods, subresource=)"))
              threeRequest) = true
   ∧ response (mkHandled false
                 (Some (403, "Forbidden (user=alice, verb=get, resource=pods, subresource=)"))
                 threeRequest) = None)
  ∨ (proceed (mkHandled false
                (Some (403, "Forbidden (user=alice, verb=get, resource=pods, subresource=)"))
                threeRequest) = false
     ∧ forwarded (mkHandled false
                    (Some (403, "Forbidden (user=alice, verb=get, resource=pods, subresource=)"))
                    threeRequest) = threeRequest
     ∧ ∃ status msg,
         response (mkHandled false
                     (Some (403, "Forbidden (user=alice, verb=get, resource=pods, subresource=)"))
                     threeRequest) = Some (status, msg)
         ∧ status ∈ [StatusBadRequest; StatusUnauthorized; StatusForbidden;
                     StatusInternalServerError]).
Proof.
  exact (Handle_turned_away ValueTemplate.Parse ValueTemplate.Execute
           Textproto.CanonicalMIMEHeaderKey countingAuthorize aliceAuthenticate
           identityHeaders queryConfig 0 2 threeRequest
           [namespaceRecord "a"; namespaceRecord "b"] _ eq_refl).
Defined.

Lemma Handle_bad_request_witness :
  handle headerConfig 0 plainRequest
  = Returned (0, [],
              mkHandled false
                (Some (400, "Bad Request. The request or configuration is malformed."))
                plainRequest).
Proof.
  refine (Handle_bad_request ValueTemplate.Parse ValueTemplate.Execute
            Textproto.CanonicalMIMEHeaderKey countingAuthorize aliceAuthenticate
            identityHeaders headerConfig 0 plainRequest alice _ eq_refl).
  repeat split.
Defined.

Lemma Handle_first_refusal_witness :
  ∃ st',
    handle queryConfig 0 threeRequest
    = Returned (st', [namespaceRecord "a"; namespaceRecord "b"],
                mkHandled false
                  (Some (403, "Forbidden (user=alice, verb=get, resource=pods, subresource=)"))
                  threeRequest).
Proof.
  refine (Handle_first_refusal ValueTemplate.Parse ValueTemplate.Execute
            Textproto.CanonicalMIMEHeaderKey countingAuthorize aliceAuthenticate
            identityHeaders queryConfig 0 threeRequest alice
            [namespaceRecord "a"; namespaceRecord "b"; namespaceRecord "c"] 1
            (namespaceRecord "b") (mkAuthorizeReply DecisionDeny "no rule matches" None)
            _ eq_refl _ eq_refl eq_refl _).
  - repeat split.
  - repeat constructor.
  - intros [_ Hallow]. discriminate.
Defined.

(** A reply that says [ok] without a user makes [Handle] panic. *)
Example Handle_ghost_panics :
  handleWith ghostAuthenticate headerConfig 0 headerRequest = Panicked nilDereference.
Proof. reflexivity. Qed.

Lemma propagateIdentity_headers_witness :
  Header (propagateIdentity Textproto.CanonicalMIMEHeaderKey identityHeaders alice
            spoofedRequest) !! "X-Remote-Groups"
  = Some ["dev|ops"]
  ∧ Header (propagateIdentity Textproto.CanonicalMIMEHeaderKey identityHeaders alice
              spoofedRequest) !! "X-Remote-User"
    = Some ["alice"].
Proof.
  pose proof (proj2 (propagateIdentity_headers Textproto.CanonicalMIMEHeaderKey
                       identityHeaders alice spoofedRequest) eq_refl) as H.
  split.
  - exact (proj1 H).
  - refine (proj1 (proj2 H) _). discriminate.
Defined.

(** ** Copying a proxy configuration *)

(** X19. Copying a copy changes nothing. *)
Theorem DeepCopy_idempotent {Other : Type} (zero : Other) (c : ProxyConfig Other) :
  DeepCopy zero (DeepCopy zero c) = DeepCopy zero c.
Proof.
  destruct c as [[[x h o] |] [[rw [ra |] file] |]]; simpl; try reflexivity.
  all: destruct x as [x |], h as [h |]; reflexivity.
Qed.

(** X20. A copy carries the template and no rewrites. The getter built
    from a copy answers every request with the one record of the template
    as configured, whatever rewrites the original had; and when the
    original had no template, the copy has no authorization
    configuration at all, and the getter built from it panics on every
    request. *)
Theorem DeepCopy_resolves_statically {Other Template : Type} (zero : Other)
    (Parse : string -> Result Template) (Execute : Template -> string -> string * option string)
    (CanonicalMIMEHeaderKey : string -> string)
    (c : ProxyConfig Other) (u : UserInfo) (r : Request) :
  getterAttributes Parse Execute CanonicalMIMEHeaderKey (Authorization (DeepCopy zero c)) u r
  = match templateOf c with
    | Some ra => Returned [verbatimRecord u (apiVerb (Method r)) ra]
    | None => Panicked nilDereference
    end.
Proof.
  unfold templateOf. destruct c as [a [[rw [ra |] file] |]]; reflexivity.
Qed.

(** The original with both rules yields three records, its copy one. *)
Example DeepCopy_loses_rewrites :
  getterAttributes ValueTemplate.Parse ValueTemplate.Execute Textproto.CanonicalMIMEHeaderKey
    (Authorization rewritingProxyConfig) alice bothRequest
  = Returned [namespaceRecord "a"; namespaceRecord "b"; namespaceRecord "{{.Value}}"]
  ∧ getterAttributes ValueTemplate.Parse ValueTemplate.Execute
      Textproto.CanonicalMIMEHeaderKey
      (Authorization (DeepCopy tt rewritingProxyConfig)) alice bothRequest
    = Returned [namespaceRecord "{{.Value}}"].
Proof. split; reflexivity. Qed.

(** The original without a template yields the path record, its copy
    panics. *)
Example DeepCopy_loses_path_mode :
  getterAttributes ValueTemplate.Parse ValueTemplate.Execute Textproto.CanonicalMIMEHeaderKey
    (Authorization pathProxyConfig) alice plainRequest
  = Returned [pathRecord alice "get" "/metrics"]
  ∧ getterAttributes ValueTemplate.Parse ValueTemplate.Execute
      Textproto.CanonicalMIMEHeaderKey
      (Authorization (DeepCopy tt pathProxyConfig)) alice plainRequest
    = Panicked nilDereference.
Proof. split; reflexivity. Qed.

(** ** Scenarios of the test kit *)

Section ScenarioFacts.

Context {World : Type}.

(** X21. [Setups], [Conditions] and [Checks] run their steps in order
    and stop at the first error: a list in two parts runs the first part
    and, only if that gave no error, the second part from where the first
    left off. *)
Theorem Setups_app (xs ys : list (@Kubetest.Step World)) (w : World)
    (ctx : Kubetest.ScenarioContext) :
  Kubetest.Setups (xs ++ ys) w ctx
  = (let '(w', ctx', e) := Kubetest.Setups xs w ctx in
     match e with
     | Some err => (w', ctx', Some err)
     | None => Kubetest.Setups ys w' ctx'
     end)
  ∧ Kubetest.Conditions (xs ++ ys) w ctx
    = (let '(w', ctx', e) := Kubetest.Conditions xs w ctx in
       match e with
       | Some err => (w', ctx', Some err)
       | None => Kubetest.Conditions ys w' ctx'
       end)
  ∧ Kubetest.Checks (xs ++ ys) w ctx
    = (let '(w', ctx', e) := Kubetest.Checks xs w ctx in
       match e with
       | Some err => (w', ctx', Some err)
       | None => Kubetest.Checks ys w' ctx'
       end).
Proof.
  split; [| split]; revert w ctx; induction xs as [| x rest IH]; intros w ctx; simpl.
  - by destruct (Kubetest.Setups ys w ctx) as [[w' ctx'] [err |]].
  - destruct (x w ctx) as [[w' ctx'] [err |]]; [done | apply IH].
  - by destruct (Kubetest.Conditions ys w ctx) as [[w' ctx'] [err |]].
  - destruct (x w ctx) as [[w' ctx'] [err |]]; [done | apply IH].
  - by destruct (Kubetest.Checks ys w ctx) as [[w' ctx'] [err |]].
  - destruct (x w ctx) as [[w' ctx'] [err |]]; [done | apply IH].
Qed.

(** X22. A step list nested in another runs as if its steps were written
    out in place. *)
Theorem Setups_nested (xs ys zs : list (@Kubetest.Step World)) (w : World)
    (ctx : Kubetest.ScenarioContext) :
  Kubetest.Setups (xs ++ Kubetest.Setups ys :: zs) w ctx
  = Kubetest.Setups (xs ++ ys ++ zs) w ctx.
Proof.
  revert w ctx. induction xs as [| x rest IH]; intros w ctx; simpl.
  - revert w ctx. induction ys as [| y more IHy]; intros w ctx; simpl; [done |].
    destruct (y w ctx) as [[w' ctx'] [err |]]; [done |]. apply IHy.
  - destruct (x w ctx) as [[w' ctx'] [err |]]; [done | apply IH].
Qed.

(** X23. Finalizers run in the order they were added, each from the world
    the one before left; the first that fails makes the run panic with its
    error, and those after it do not run. *)
Theorem runFinalizers_app (xs ys : list (@Kubetest.Finalizer World)) (w : World)
    (f : Kubetest.Finalizer) (ctx : Kubetest.ScenarioContext) :
  Kubetest.runFinalizers (xs ++ ys) w
  = obind (Kubetest.runFinalizers xs w) (Kubetest.runFinalizers ys)
  ∧ Kubetest.runFinalizers (Kubetest.ctx_Finalizer (Kubetest.AddFinalizer f ctx)) w
    = obind (Kubetest.runFinalizers (Kubetest.ctx_Finalizer ctx) w)
        (fun w' => let (w'', e) := f w' in
                   match e with
                   | Some err => Panicked err
                   | None => Returned w''
                   end).
Proof.
  assert (Happ : ∀ xs ys w,
            Kubetest.runFinalizers (xs ++ ys) w
            = obind (Kubetest.runFinalizers (World := World) xs w)
                (Kubetest.runFinalizers ys)).
  { clear. intros xs ys. induction xs as [| x rest IH]; intros w; simpl; [done |].
    destruct (x w) as [w' [err |]]; [done | apply IH]. }
  split; [apply Happ |].
  unfold Kubetest.AddFinalizer. simpl. rewrite Happ.
  destruct (Kubetest.runFinalizers (Kubetest.ctx_Finalizer ctx) w) as [w' | why]; [| done].
  simpl. by destruct (f w') as [w'' [err |]].
Qed.

(** X24. Without a given setup the checks are never run: two scenarios
    with a nil [Given] and the same [When] run alike, whatever their
    [Then] are, so checks that would fail do not fail the scenario. *)
Theorem Run_without_Given (s s' : @Kubetest.Scenario World)
    (opts : list Kubetest.RunOpts) (w : World) :
  Kubetest.Given s = None →
  Kubetest.Given s' = None →
  Kubetest.When s = Kubetest.When s' →
  Kubetest.Run s opts w = Kubetest.Run s' opts w.
Proof.
  intros Hs Hs' Hwhen. unfold Kubetest.Run, Kubetest.subtest, Kubetest.whenThen.
  by rewrite Hs, Hs', Hwhen.
Qed.

(** X25. When the given setup fails, neither the condition nor the checks
    run and the scenario fails with the one message of the setup; the
    finalizers registered until then are still run. *)
Theorem Run_Given_fails (s : Kubetest.Scenario) (opts : list Kubetest.RunOpts)
    (w w0 w1 : World) (ctx0 ctx1 : Kubetest.ScenarioContext)
    (given : Kubetest.Step) (err : string) :
  Kubetest.applyOpts opts w (Kubetest.mkScenarioContext "default" []) = Returned (w0, ctx0) →
  Kubetest.Given s = Some given →
  given w0 ctx0 = (w1, ctx1, Some err) →
  Kubetest.Run s opts w
  = obind (Kubetest.runFinalizers (Kubetest.ctx_Finalizer ctx1) w1)
      (fun w' => Returned (w', ["failed to create given setup: " +:+ err], false)).
Proof.
  intros Hopts Hgiven Hfail. unfold Kubetest.Run, Kubetest.subtest.
  rewrite Hopts. simpl. rewrite Hgiven, Hfail. reflexivity.
Qed.


End ScenarioFacts.

Lemma Run_without_Given_witness :
  Kubetest.Run uncheckedScenario [] []
  = Kubetest.Run (Kubetest.mkScenario "no given" "" None (Some (loggingStep "request" true))
                    None) [] []
  ∧ Kubetest.Run uncheckedScenario [] [] = Returned (["request"], [], true).
Proof.
  split; [| reflexivity].
  exact (Run_without_Given uncheckedScenario
           (Kubetest.mkScenario "no given" "" None (Some (loggingStep "request" true)) None)
           [] [] eq_refl eq_refl eq_refl).
Defined.

Lemma Run_Given_fails_witness :
  Kubetest.Run failingGivenScenario [registeringOpt "option"] []
  = Returned (["option"; "namespace"; "deploy"; "undo option"; "undo namespace"],
              ["failed to create given setup: deploy failed"], false).
Proof.
  exact (Run_Given_fails failingGivenScenario [registeringOpt "option"] []
           ["option"]
           ["option"; "namespace"; "deploy"]
           (Kubetest.mkScenarioContext "default" [loggingFinalizer "undo option" true])
           (Kubetest.mkScenarioContext "default"
              [loggingFinalizer "undo option" true; loggingFinalizer "undo namespace" true])
           _ "deploy failed" eq_refl eq_refl eq_refl).
Defined.


(** ** The state of the authorizer *)

(** X27. The state the loop leaves the authorizer in is the state after
    exactly the calls it recorded, in their order: the authorizer is asked
    about nothing else. *)
Theorem authorizeAll_state {AuthorizerState : Type}
    (Authorize : AuthorizerState -> AttributesRecord -> AuthorizerState * AuthorizeReply)
    (u : UserInfo) (st : AuthorizerState) (allAttrs : list AttributesRecord) :
  (authorizeAll Authorize u st allAttrs).1.1
  = stateAfter Authorize st (authorizeAll Authorize u st allAttrs).1.2.
Proof.
  unfold stateAfter. revert st. induction allAttrs as [| attrs rest IH]; intros st; simpl;
    [done |].
  destruct (Authorize st attrs) as [st' reply] eqn:Hcall.
  destruct (err reply) as [e |]; simpl; [by rewrite Hcall |].
  destruct (negb (Decision_eqb (authorized reply) DecisionAllow)); simpl; [by rewrite Hcall |].
  specialize (IH st'). destruct (authorizeAll Authorize u st' rest) as [[st'' calls] verdict].
  simpl in *. by rewrite Hcall.
Qed.

(** ** Validation, then resolution *)

Section ValidateThenResolve.

Context {Template : Type}.
Variable Parse : string -> Result Template.
Variable Execute : Template -> string -> string * option string.
Variable CanonicalMIMEHeaderKey : string -> string.

(** X28. A lone rule whose target list is nil rewrites nothing as long as
    [InitConfig] has not run: every captured value gets the template as
    configured. In the configuration [InitConfig] returns, the same rule
    rewrites all six fields: where the six templates parse, every captured
    value gets the record with each field rendered. *)
Theorem InitConfig_then_resolve (cfg : Config) (ra : ResourceAttributes)
    (rw : SubjectAccessReviewRewrites) (u : UserInfo) (r : Request) :
  cfg_ResourceAttributes cfg = Some ra →
  Rewrites cfg = Some rw →
  loneRuleUnset rw →
  GetRequestAttributes Parse Execute CanonicalMIMEHeaderKey cfg u r
  = Returned (map (fun _ => verbatimRecord u (apiVerb (Method r)) ra)
                  (collectParameters CanonicalMIMEHeaderKey rw r))
  ∧ ∃ cfg',
      Authz.InitConfig cfg = Ok cfg'
      ∧ (targetsParse Parse ra allResourceAttributesNames →
         GetRequestAttributes Parse Execute CanonicalMIMEHeaderKey cfg' u r
         = Returned (map (fun p => allRendered Parse Execute u (apiVerb (Method r)) ra (value p))
                         (collectParameters CanonicalMIMEHeaderKey rw r))).
Proof.
  intros Hra Hrw Hlone.
  assert (Hnone : noTargets rw).
  { unfold loneRuleUnset in Hlone. split.
    - intros q Hq. rewrite Hq in Hlone.
      destruct (ByHTTPHeader rw); [done | by rewrite Hlone].
    - intros h Hh. rewrite Hh in Hlone.
      destruct (ByQueryParameter rw); [done | by rewrite Hlone]. }
  split.
  - rewrite (GetRequestAttributes_parsed Parse Execute CanonicalMIMEHeaderKey
               cfg ra rw u r Hra Hrw).
    + f_equal. apply map_ext. intros p. unfold renderedAttributes, verbatimRecord.
      by rewrite (noTargets_targetsFor rw p Hnone).
    + intros p _. rewrite (noTargets_targetsFor rw p Hnone). apply targetsParse_nil.
  - unfold loneRuleUnset in Hlone.
    destruct rw as [[[qn qt qs] |] [[hn ht hs] |]]; simpl in Hlone; try done; subst.
    + eexists. split; [unfold Authz.InitConfig; rewrite Hrw; reflexivity |].
      intros Hparse.
      match goal with
      | |- GetRequestAttributes _ _ _ ?c u r = _ =>
          rewrite (GetRequestAttributes_parsed Parse Execute CanonicalMIMEHeaderKey
                     c ra _ u r Hra eq_refl)
      end.
      * f_equal. apply map_ext_in. intros p Hp.
        unfold collectParameters, queryParameters, headerParameters in Hp. simpl in Hp.
        rewrite app_nil_r in Hp.
        destruct (negb (qn =? "")%string); [| done].
        destruct (URL_Query r !! qn) as [params |]; [| done].
        apply in_map_iff in Hp as [v [<- _]]. reflexivity.
      * intros p Hp.
        unfold collectParameters, queryParameters, headerParameters in Hp. simpl in Hp.
        rewrite app_nil_r in Hp.
        destruct (negb (qn =? "")%string); [| by apply not_elem_of_nil in Hp].
        destruct (URL_Query r !! qn) as [params |]; [| by apply not_elem_of_nil in Hp].
        apply list_elem_of_fmap in Hp as [v [-> _]]. exact Hparse.
    + eexists. split; [unfold Authz.InitConfig; rewrite Hrw; reflexivity |].
      intros Hparse.
      match goal with
      | |- GetRequestAttributes _ _ _ ?c u r = _ =>
          rewrite (GetRequestAttributes_parsed Parse Execute CanonicalMIMEHeaderKey
                     c ra _ u r Hra eq_refl)
      end.
      * f_equal. apply map_ext_in. intros p Hp.
        unfold collectParameters, queryParameters, headerParameters in Hp. simpl in Hp.
        destruct (negb (hn =? "")%string); [| done].
        destruct (negb (Header_Get CanonicalMIMEHeaderKey (Header r) hn =? "")%string);
          [| done].
        destruct Hp as [<- | []]. reflexivity.
      * intros p Hp.
        unfold collectParameters, queryParameters, headerParameters in Hp. simpl in Hp.
        destruct (negb (hn =? "")%string); [| by apply not_elem_of_nil in Hp].
        destruct (negb (Header_Get CanonicalMIMEHeaderKey (Header r) hn =? "")%string);
          [| by apply not_elem_of_nil in Hp].
        apply list_elem_of_singleton in Hp as ->. exact Hparse.
Qed.

End ValidateThenResolve.

Lemma InitConfig_then_resolve_witness :
  resolve loneQueryValueConfig alice queryRequest
  = Returned [verbatimRecord alice "get" valueTemplate; verbatimRecord alice "get" valueTemplate]
  ∧ ∃ cfg',
      Authz.InitConfig loneQueryValueConfig = Ok cfg'
      ∧ resolve cfg' alice queryRequest
        = Returned [mkAttributesRecord alice "get" "a" "apps" "v1" "deployments" "" "web-a"
                      true "";
                    mkAttributesRecord alice "get" "b" "apps" "v1" "deployments" "" "web-b"
                      true ""].
Proof.
  destruct (InitConfig_then_resolve ValueTemplate.Parse ValueTemplate.Execute
              Textproto.CanonicalMIMEHeaderKey loneQueryValueConfig valueTemplate _ alice
              queryRequest eq_refl eq_refl eq_refl) as [Hbefore [cfg' [Hinit Hafter]]].
  split; [exact Hbefore |]. exists cfg'. split; [exact Hinit |].
  apply Hafter. intros attribute templateString Hfield _.
  unfold templateFields, valueTemplate in Hfield. simpl in Hfield.
  rewrite !elem_of_cons in Hfield.
  destruct Hfield as [[= -> ->] | [[= -> ->] | [[= -> ->] | [[= -> ->] | [[= -> ->] | [[= -> ->] | Hnil]]]]]];
    try (eexists; reflexivity).
  by apply not_elem_of_nil in Hnil.
Defined.
